(** * Databricks-VSCode: connection manager and cluster tree item

    A shallow embedding of
    [src/connections/DatabricksConnectionManagerVSCode.ts] and of
    [DatabricksCluster.delete] from
    [src/vscode/treeviews/clusters/DatabricksCluster.ts].

    JavaScript values that the code tests against [undefined] are options;
    the VSCode settings are a record read through
    [getConfigurationSetting]; every observable action of a method (a log
    line, a settings update request, a call of the API service) is an
    [Effect], and a method is a function from the world to a completion, a
    new world and the effects it emitted, in order. *)

From Stdlib Require Import String List Bool Arith Lia DecimalString.
Import ListNotations.
Open Scope string_scope.
Open Scope list_scope.

(** ** JavaScript preliminaries *)

Inductive JsError : Type :=
| Error (message : string)
| TypeError (message : string).

(** What a function call does: return, throw, or never come back (the
    busy wait of the [Connections] getter). *)
Inductive Completion (A : Type) : Type :=
| Normal (a : A)
| Throw (e : JsError)
| Spin.
Arguments Normal {A} a.
Arguments Throw {A} e.
Arguments Spin {A}.

(** The settled value of the promise an [async] function returns. *)
Inductive Promise (A : Type) : Type :=
| Fulfilled (a : A)
| Rejected (e : JsError).
Arguments Fulfilled {A} a.
Arguments Rejected {A} e.

(** Template literals print array lengths in decimal. *)
Definition string_of_nat (n : nat) : string :=
  NilEmpty.string_of_uint (Nat.to_uint n).

(** [names.includes(x)] on an array of strings. *)
Definition includes (x : string) (names : list string) : bool :=
  existsb (String.eqb x) names.

(** Truthiness of a string that may be [undefined]. *)
Definition truthy_string (s : option string) : bool :=
  match s with
  | None => false
  | Some v => negb (String.eqb v "")
  end.

Definition truthy_bool (b : option bool) : bool :=
  match b with
  | None => false
  | Some v => v
  end.

(** [a == b] on two values that are strings or [undefined]. *)
Definition loose_eq (a b : option string) : bool :=
  match a, b with
  | None, None => true
  | Some x, Some y => String.eqb x y
  | _, _ => false
  end.

(** ** Data model *)

(** Modelled from the spec: the declarations of [CloudProvider] and
    [ExportFormatsConfiguration] are not among the sources; the code only
    copies these values around, so they are kept as uninterpreted
    payloads. *)
Definition CloudProvider : Type := string.
Definition ExportFormatsConfiguration : Type := string.

Record iDatabricksConnection : Type := mkConnection {
  displayName : string;
  cloudProvider : option CloudProvider;
  apiRootUrl : option string;
  personalAccessToken : option string;
  localSyncFolder : option string;
  exportFormats : option ExportFormatsConfiguration;
  useCodeCells : option bool;
  personalAccessTokenSecure : option string
}.

(** Modelled from the spec: the class [DatabricksConnection] is not among
    the sources; the spec's ConnectionRecord carries the same fields as
    the interface, immutable once built, so [new DatabricksConnection(con)]
    is the record itself. *)
Definition DatabricksConnection : Type := iDatabricksConnection.

Record iWorkspaceConfiguration : Type := mkWorkspaceConfig {
  workspaceGuid : option string;
  lastActiveConnection : option string
}.

Record iUserWorkspaceConfiguration : Type := mkUserWorkspaceConfig {
  workspaceConfig : iWorkspaceConfiguration;
  connections : list DatabricksConnection
}.

(** The settings [databricks.connection.default.*] of the workspace. *)
Record DefaultBlock : Type := mkDefaultBlock {
  default_displayName : option string;
  default_cloudProvider : option CloudProvider;
  default_apiRootUrl : option string;
  default_personalAccessToken : option string;
  default_localSyncFolder : option string;
  default_databricksConnectJars : option string;
  default_pythonInterpreter : option string;
  default_port : option string;
  default_organizationId : option string;
  default_exportFormats : option ExportFormatsConfiguration;
  default_useCodeCells : option bool
}.

Definition empty_default : DefaultBlock :=
  mkDefaultBlock None None None None None None None None None None None.

(** The settings the two classes touch.  The first four live in the
    Workspace target, the last one in the Global target. *)
Record Settings : Type := mkSettings {
  databricks_workspaceConfiguration : option iWorkspaceConfiguration;
  databricks_connections : option (list iDatabricksConnection);
  databricks_connection_default : DefaultBlock;
  python_dataScience_codeRegularExpression : option string;
  databricks_userWorkspaceConfigurations : list iUserWorkspaceConfiguration
}.

Inductive DefaultKey : Type :=
| K_displayName | K_cloudProvider | K_apiRootUrl | K_personalAccessToken
| K_localSyncFolder | K_databricksConnectJars | K_pythonInterpreter
| K_port | K_organizationId | K_exportFormats | K_useCodeCells.

Inductive ConfigurationTarget : Type := Global | Workspace.

(** One call of [vscode.workspace.getConfiguration().update(key, value,
    target)], by key. *)
Inductive ConfigUpdate : Type :=
| SetUserWorkspaceConfigurations (v : list iUserWorkspaceConfiguration)
| SetWorkspaceConfiguration (v : option iWorkspaceConfiguration)
| ClearConnections
| ClearDefault (k : DefaultKey)
| SetCodeRegularExpression (v : option string).

Definition target_of (u : ConfigUpdate) : ConfigurationTarget :=
  match u with
  | SetUserWorkspaceConfigurations _ => Global
  | _ => Workspace
  end.

Inductive Effect : Type :=
| Log (msg : string)
| ShowErrorMessage (msg : string)
| Update (u : ConfigUpdate)
| ApiInitialize (con : option DatabricksConnection)
| ApiDeleteCluster (cluster_id : string)
| SetTimeoutCommand (command : string) (ms : nat)
| UnhandledRejection (e : JsError).

(** *** Settling the update requests

    [update] only issues a request and hands back a thenable; the write
    happens after the synchronous code has run to completion, and it may be
    rejected.  [apply_update] is a write that went through. *)
Definition clear_default (k : DefaultKey) (d : DefaultBlock) : DefaultBlock :=
  match d with
  | mkDefaultBlock dn cp url pat lsf jars py port org ef ucc =>
    match k with
    | K_displayName => mkDefaultBlock None cp url pat lsf jars py port org ef ucc
    | K_cloudProvider => mkDefaultBlock dn None url pat lsf jars py port org ef ucc
    | K_apiRootUrl => mkDefaultBlock dn cp None pat lsf jars py port org ef ucc
    | K_personalAccessToken => mkDefaultBlock dn cp url None lsf jars py port org ef ucc
    | K_localSyncFolder => mkDefaultBlock dn cp url pat None jars py port org ef ucc
    | K_databricksConnectJars => mkDefaultBlock dn cp url pat lsf None py port org ef ucc
    | K_pythonInterpreter => mkDefaultBlock dn cp url pat lsf jars None port org ef ucc
    | K_port => mkDefaultBlock dn cp url pat lsf jars py None org ef ucc
    | K_organizationId => mkDefaultBlock dn cp url pat lsf jars py port None ef ucc
    | K_exportFormats => mkDefaultBlock dn cp url pat lsf jars py port org None ucc
    | K_useCodeCells => mkDefaultBlock dn cp url pat lsf jars py port org ef None
    end
  end.

Definition apply_update (u : ConfigUpdate) (s : Settings) : Settings :=
  match s with
  | mkSettings wc cns dflt re glob =>
    match u with
    | SetUserWorkspaceConfigurations v => mkSettings wc cns dflt re v
    | SetWorkspaceConfiguration v => mkSettings v cns dflt re glob
    | ClearConnections => mkSettings wc None dflt re glob
    | ClearDefault k => mkSettings wc cns (clear_default k dflt) re glob
    | SetCodeRegularExpression v => mkSettings wc cns dflt v glob
    end
  end.

(** The settings once every request of a trace has been settled;
    [accepted u = false] is a rejected write. *)
Fixpoint settle (accepted : ConfigUpdate -> bool) (trace : list Effect)
    (s : Settings) : Settings :=
  match trace with
  | [] => s
  | Update u :: rest =>
      settle accepted rest (if accepted u then apply_update u s else s)
  | _ :: rest => settle accepted rest s
  end.

Definition all_accepted (u : ConfigUpdate) : bool := true.

(** A store in which writes to the Global target are rejected. *)
Definition global_rejected (u : ConfigUpdate) : bool :=
  match target_of u with
  | Global => false
  | Workspace => true
  end.

(** The update requests of a trace, in the order they were issued. *)
Fixpoint updates_of (trace : list Effect) : list ConfigUpdate :=
  match trace with
  | [] => []
  | Update u :: rest => u :: updates_of rest
  | _ :: rest => updates_of rest
  end.

(** ** The manager object and the world *)

Record Manager : Type := mkManager {
  _initialized : bool;
  _workspaceConfig : option iWorkspaceConfiguration;
  _connections : list DatabricksConnection;
  _activeConnection : option DatabricksConnection
}.

(** [guidCounter] counts the guids handed out so far. *)
Record World : Type := mkWorld {
  settings : Settings;
  this : Manager;
  guidCounter : nat
}.

Definition M (A : Type) : Type := World -> Completion A * World * list Effect.

Definition ret {A : Type} (a : A) : M A := fun w => (Normal a, w, []).

Definition bind {A B : Type} (m : M A) (k : A -> M B) : M B :=
  fun w =>
    match m w with
    | (Normal a, w1, es1) =>
        match k a w1 with
        | (r, w2, es2) => (r, w2, es1 ++ es2)
        end
    | (Throw e, w1, es1) => (Throw e, w1, es1)
    | (Spin, w1, es1) => (Spin, w1, es1)
    end.

Notation "x <- c1 ;; c2" := (bind c1 (fun x => c2))
  (at level 61, c1 at next level, right associativity).
Notation "c1 ;; c2" := (bind c1 (fun _ => c2))
  (at level 61, right associativity).

Definition throw {A : Type} (e : JsError) : M A := fun w => (Throw e, w, []).
Definition spin {A : Type} : M A := fun w => (Spin, w, []).
Definition emit (e : Effect) : M unit := fun w => (Normal tt, w, [e]).
Definition log (msg : string) : M unit := emit (Log msg).
Definition update (u : ConfigUpdate) : M unit := emit (Update u).

Definition getThis : M Manager := fun w => (Normal (this w), w, []).
Definition setThis (m : Manager) : M unit :=
  fun w => (Normal tt, mkWorld (settings w) m (guidCounter w), []).

Definition getConfigurationSetting {A : Type} (key : Settings -> A) : M A :=
  fun w => (Normal (key (settings w)), w, []).

(** [try { body } catch (error) { handler }]: only a synchronous throw
    reaches the handler. *)
Definition try_catch {A : Type} (body : M A) (handler : JsError -> M A) : M A :=
  fun w =>
    match body w with
    | (Throw e, w1, es1) =>
        match handler e w1 with
        | (r, w2, es2) => (r, w2, es1 ++ es2)
        end
    | other => other
    end.

(** Calling an [async] function whose body has no [await]: the body runs
    synchronously, and what it returns or throws settles the promise that
    the call returns. *)
Definition async {A : Type} (body : M A) : M (Promise A) :=
  fun w =>
    match body w with
    | (Normal a, w1, es1) => (Normal (Fulfilled a), w1, es1)
    | (Throw e, w1, es1) => (Normal (Rejected e), w1, es1)
    | (Spin, w1, es1) => (Spin, w1, es1)
    end.

(** An expression statement that drops a promise: a rejection is left
    without a handler. *)
Definition discard {A : Type} (p : Promise A) : M unit :=
  match p with
  | Fulfilled _ => ret tt
  | Rejected e => emit (UnhandledRejection e)
  end.

Definition set_initialized (b : bool) : M unit :=
  m <- getThis ;;
  setThis (mkManager b (_workspaceConfig m) (_connections m) (_activeConnection m)).

Definition set_workspaceConfig (c : option iWorkspaceConfiguration) : M unit :=
  m <- getThis ;;
  setThis (mkManager (_initialized m) c (_connections m) (_activeConnection m)).

Definition set_connections (l : list DatabricksConnection) : M unit :=
  m <- getThis ;;
  setThis (mkManager (_initialized m) (_workspaceConfig m) l (_activeConnection m)).

Definition set_activeConnection (c : option DatabricksConnection) : M unit :=
  m <- getThis ;;
  setThis (mkManager (_initialized m) (_workspaceConfig m) (_connections m) c).

(** The fields of the base class before the constructor body runs. *)
Definition super : Manager := mkManager false None [] None.

(** ** DatabricksCluster.delete *)

Record DatabricksCluster : Type := mkCluster {
  name : string;
  cluster_id : string
}.

(** [delete()], given what [Helper.showInputBox] resolved to ([None] when
    the box was cancelled) and how the promise of
    [DatabricksApiService.deleteCluster] settles if the call is made.  The
    result is the promise of the [async] method and its effects. *)
Definition delete (cluster : DatabricksCluster) (confirm : option string)
    (deleteCluster : Promise unit) : Promise unit * list Effect :=
  if negb (truthy_string confirm)
     || negb (loose_eq confirm (Some (name cluster)))
  then
    (Fulfilled tt,
     [Log ("Deletion of Cluster '" ++ name cluster ++ "' aborted!")%string])
  else
    match deleteCluster with
    | Rejected e => (Rejected e, [ApiDeleteCluster (cluster_id cluster)])
    | Fulfilled _ =>
        (Fulfilled tt,
         [ApiDeleteCluster (cluster_id cluster);
          SetTimeoutCommand "databricksClusters.refresh" 1000])
    end.

(** Whether a trace holds a call of the deleteCluster API. *)
Definition calls_deleteCluster (trace : list Effect) : bool :=
  existsb (fun e => match e with ApiDeleteCluster _ => true | _ => false end)
          trace.

(** ** DatabricksCluster: what the tree item shows *)

(** The fields of the [iDatabricksCluster] definition that the getters
    below read; the interface itself and [ClusterState] (the state strings
    of the REST API) are declared outside the sources. *)
Module ClusterDefinition.
Record custom_tags_t : Type := mkTags {
  ResourceClass : option string
}.
Record t : Type := mk {
  cluster_id : string;
  cluster_name : string;
  state : option string;
  custom_tags : option custom_tags_t
}.
End ClusterDefinition.

(** [text.includes(part)] on strings. *)
Fixpoint str_includes (part text : string) : bool :=
  if String.prefix part text then true
  else match text with
       | EmptyString => false
       | String _ rest => str_includes part rest
       end.

Definition started_states : list string :=
  ["RUNNING"; "ERROR"; "UNKNOWN"; "PENDING"].
Definition stopped_states : list string :=
  ["UNKNOWN"; "RESTARTING"; "RESIZING"; "TERMINATING"; "TERMINATED"].

Section ClusterView.

(** [DatabricksKernelManager.getNotebookKernel] is not among the sources:
    the getters are verified for every kernel manager. *)
Variable DatabricksKernel : Type.
Variable getNotebookKernel : ClusterDefinition.t -> option DatabricksKernel.

(** get state *)
Definition state (definition : ClusterDefinition.t) : string :=
  match ClusterDefinition.state definition with
  | None => "UNKNOWN"
  | Some s => s
  end.

(** get NotebookKernel *)
Definition NotebookKernel (definition : ClusterDefinition.t)
    : option DatabricksKernel :=
  getNotebookKernel definition.

(** get NotebookKernelExists *)
Definition NotebookKernelExists (definition : ClusterDefinition.t) : bool :=
  match NotebookKernel definition with
  | Some _ => true
  | None => false
  end.

(** get InteractiveKernel *)
Definition InteractiveKernel (definition : ClusterDefinition.t)
    : option DatabricksKernel :=
  getNotebookKernel definition.

(** get InteractiveKernelExists *)
Definition InteractiveKernelExists (definition : ClusterDefinition.t) : bool :=
  match InteractiveKernel definition with
  | Some _ => true
  | None => false
  end.

(** get _description *)
Definition _description (definition : ClusterDefinition.t) : string :=
  let desc := ClusterDefinition.cluster_id definition in
  let desc :=
    match ClusterDefinition.custom_tags definition with
    | Some tags =>
        match ClusterDefinition.ResourceClass tags with
        | Some rc =>
            if String.eqb rc "Serverless"
            then (desc ++ " (High-Concurrency, ")%string
            else if String.eqb rc "SingleNode"
                 then (desc ++ " (SingleNode, ")%string
                 else (desc ++ " (Standard, ")%string
        | None => (desc ++ " (Standard, ")%string
        end
    | None => (desc ++ " (Standard, ")%string
    end in
  (desc ++ state definition ++ ")")%string.

(** get _contextValue *)
Definition _contextValue (definition : ClusterDefinition.t) : string :=
  let states : list string := [] in
  let states :=
    if includes (state definition) started_states
    then (states ++ ["STARTED"])%list else states in
  let states :=
    if includes (state definition) stopped_states
    then (states ++ ["STOPPED"])%list else states in
  let states :=
    if NotebookKernelExists definition
    then (states ++ ["KERNEL"])%list else (states ++ ["NOKERNEL"])%list in
  ("," ++ String.concat "," states ++ ",")%string.

(** [getIconPath(theme)], as the segments handed to
    [FSHelper.joinPathSync] after the root of the extension.  The
    constructor calls it right after it has set [contextValue] to
    [_contextValue]. *)
Definition getIconPath (definition : ClusterDefinition.t) (theme : string)
    : list string :=
  let st :=
    if str_includes "STOPPED" (_contextValue definition)
    then "stop" else "start" in
  let st :=
    if String.eqb (state definition) "PENDING" then "pending" else st in
  ["resources"; theme; (st ++ ".png")%string].

End ClusterView.

(** ** Sample data used by the examples *)

(** Modelled from the spec: [DatabricksConnection.validate] is not among
    the sources; the spec calls a record valid iff its displayName is
    non-empty and apiRootUrl and the credential are present. *)
Definition validate_spec (c : DatabricksConnection) : bool :=
  negb (String.eqb (displayName c) "")
  && match apiRootUrl c with Some _ => true | None => false end
  && match personalAccessToken c, personalAccessTokenSecure c with
     | None, None => false
     | _, _ => true
     end.

(** A guid generator that never repeats itself. *)
Definition guid_of_counter (n : nat) : string :=
  ("guid-" ++ string_of_nat n)%string.

Definition sample_connection (n url : string) : DatabricksConnection :=
  mkConnection n (Some "Azure") (Some url) (Some "dapi-token") None None
               (Some false) None.

Definition con_dev : DatabricksConnection :=
  sample_connection "dev" "https://dev.azuredatabricks.net".
Definition con_dev_other : DatabricksConnection :=
  sample_connection "dev" "https://other.azuredatabricks.net".
Definition con_prod : DatabricksConnection :=
  sample_connection "prod" "https://prod.azuredatabricks.net".

Definition sample_world (s : Settings) : World := mkWorld s super 0.

Definition settings_of (wc : option iWorkspaceConfiguration)
    (cons : option (list iDatabricksConnection))
    (glob : list iUserWorkspaceConfiguration) : Settings :=
  mkSettings wc cons empty_default None glob.

Definition config_with_guid : iWorkspaceConfiguration :=
  mkWorkspaceConfig (Some "guid-project") None.
Definition config_without_guid : iWorkspaceConfiguration :=
  mkWorkspaceConfig None None.
Definition config_last_gone : iWorkspaceConfiguration :=
  mkWorkspaceConfig (Some "guid-project") (Some "gone").

(** [dev] in the workspace list, another [dev] and [prod] in the global
    entry of the project. *)
Definition settings_dev_prod : Settings :=
  settings_of (Some config_with_guid) (Some [con_dev])
    [mkUserWorkspaceConfig config_with_guid [con_dev_other; con_prod]].

(** Two records called [dev] in the workspace list. *)
Definition settings_dev_twice : Settings :=
  settings_of (Some config_with_guid) (Some [con_dev; con_dev_other]) [].

(** A workspace that has a configuration record without a guid yet. *)
Definition settings_no_guid : Settings :=
  settings_of (Some config_without_guid) (Some [con_dev]) [].

(** A workspace without a configuration record. *)
Definition settings_no_config : Settings :=
  settings_of None (Some [con_dev]) [].

(** One record in the workspace list, nothing stored globally yet. *)
Definition settings_first_run : Settings :=
  settings_of (Some config_with_guid) (Some [con_dev]) [].

(** The last active connection is one that no longer exists. *)
Definition settings_last_gone : Settings :=
  settings_of (Some config_last_gone) (Some [con_dev; con_prod]) [].

(** Two global entries under the guid of the project. *)
Definition settings_duplicate_guid : Settings :=
  settings_of (Some config_with_guid) (Some [con_dev])
    [mkUserWorkspaceConfig config_with_guid [con_prod];
     mkUserWorkspaceConfig config_with_guid []].

(** A default block called [staging], and an older [staging] in the
    global entry of the project. *)
Definition default_staging : DefaultBlock :=
  mkDefaultBlock (Some "staging") (Some "Azure")
    (Some "https://staging.azuredatabricks.net") (Some "dapi-token")
    None None None None None None (Some true).

Definition con_staging : DatabricksConnection :=
  mkConnection "staging" (Some "Azure")
    (Some "https://staging.azuredatabricks.net") (Some "dapi-token")
    None None (Some true) None.

Definition settings_with_default : Settings :=
  mkSettings (Some config_with_guid) (Some [con_dev]) default_staging None
    [mkUserWorkspaceConfig config_with_guid
       [sample_connection "staging" "https://old.azuredatabricks.net";
        con_prod]].


(** [prod] recorded as last active connection. *)
Definition config_last_prod : iWorkspaceConfiguration :=
  mkWorkspaceConfig (Some "guid-project") (Some "prod").
Definition settings_last_prod : Settings :=
  settings_of (Some config_last_prod) (Some [con_dev; con_prod]) [].

(** A manager after a load that found [dev] and [prod]. *)
Definition loaded_world : World :=
  mkWorld settings_dev_prod
    (mkManager true (Some config_with_guid) [con_dev; con_prod] None) 0.

(** A cluster definition without state and tags, and no kernels. *)
Definition cluster_without_state : ClusterDefinition.t :=
  ClusterDefinition.mk "0923-164208-meows279" "shared" None None.
Definition no_kernels (definition : ClusterDefinition.t) : option unit := None.

(** ** DatabricksConnectionManagerVSCode *)

Section ConnectionManager.

(** [DatabricksConnection.validate] and [Helper.newGuid] are not among the
    sources: the manager is verified for every validation predicate and
    every generator. *)
Variable validate : DatabricksConnection -> bool.
Variable newGuid : nat -> string.

Definition Helper_newGuid : M string :=
  fun w =>
    (Normal (newGuid (guidCounter w)),
     mkWorld (settings w) (this w) (S (guidCounter w)), []).

(** The loop [for (let con of cons) { ... if (dbCon.validate())
    ret.push(dbCon) }] of both list readers. *)
Fixpoint push_valid (cons : list iDatabricksConnection)
    (ret : list DatabricksConnection) : list DatabricksConnection :=
  match cons with
  | [] => ret
  | con :: rest =>
      let dbCon : DatabricksConnection := con in
      if validate dbCon then push_valid rest (ret ++ [dbCon])
      else push_valid rest ret
  end.

(** get Connections *)
Definition Connections : M (list DatabricksConnection) :=
  m <- getThis ;;
  if _initialized m then ret (_connections m) else spin.

(** get ActiveConnection *)
Definition ActiveConnection : M (option DatabricksConnection) :=
  m <- getThis ;; ret (_activeConnection m).

Definition getConnectionsFromWorkspace : M (list DatabricksConnection) :=
  cons <- getConfigurationSetting databricks_connections ;;
  match cons with
  | Some l => ret (push_valid l [])
  | None => ret []
  end.

Definition getDefaultConnectionFromWorkspace : M (option DatabricksConnection) :=
  d <- getConfigurationSetting databricks_connection_default ;;
  match default_displayName d with
  | None => ret None
  | Some n =>
      let defaultCon : DatabricksConnection :=
        mkConnection n (default_cloudProvider d) (default_apiRootUrl d)
          (default_personalAccessToken d) (default_localSyncFolder d)
          (default_exportFormats d) (default_useCodeCells d) None in
      if String.eqb n "" || negb (validate defaultCon) then ret None
      else ret (Some defaultCon)
  end.

(** get AllGlobalWorkspaceConfigurations *)
Definition AllGlobalWorkspaceConfigurations : M (list iUserWorkspaceConfiguration) :=
  getConfigurationSetting databricks_userWorkspaceConfigurations.

(** get CurrentWorkspaceConfiguration: an object literal, never
    [undefined].  The getter is read by [updateUserWorkspaceConfig] only,
    at the end of [loadConnections], where [_workspaceConfig] is set; the
    declared type of the literal has no undefined [workspaceConfig], and
    that case is closed with an error here. *)
Definition CurrentWorkspaceConfiguration : M (option iUserWorkspaceConfiguration) :=
  m <- getThis ;;
  match _workspaceConfig m with
  | None => throw (TypeError "workspaceConfig is undefined")
  | Some wc =>
      cons <- Connections ;;
      ret (Some (mkUserWorkspaceConfig wc cons))
  end.

(** The callbacks [x => x.workspaceConfig.workspaceGuid ==
    this._workspaceConfig.workspaceGuid] and its negation dereference
    [this._workspaceConfig] once per element. *)
Definition filter_by_guid (keep_equal : bool)
    (all : list iUserWorkspaceConfiguration)
    : M (list iUserWorkspaceConfiguration) :=
  m <- getThis ;;
  match _workspaceConfig m with
  | None =>
      match all with
      | [] => ret []
      | _ :: _ =>
          throw (TypeError "Cannot read properties of undefined (reading 'workspaceGuid')")
      end
  | Some wc =>
      ret (filter (fun x =>
                     Bool.eqb keep_equal
                       (loose_eq (workspaceGuid (workspaceConfig x))
                                 (workspaceGuid wc)))
                  all)
  end.

(** get CurrentUserWorkspaceConfiguration *)
Definition CurrentUserWorkspaceConfiguration : M (option iUserWorkspaceConfiguration) :=
  allUserWorkspaceConfigs <- AllGlobalWorkspaceConfigurations ;;
  currentUserWorkspaceConfig <- filter_by_guid true allUserWorkspaceConfigs ;;
  match currentUserWorkspaceConfig with
  | [x] => ret (Some x)
  | [] => ret None
  | _ =>
      throw (Error "There is an error in your User Workspace Configurations ('databricks.userWorkspaceConfigurations'). Please make sure all 'workspaceGuid' are unique!")
  end.

Definition getConnectionsFromGlobalConfig : M (list DatabricksConnection) :=
  currentUserWorkspaceConfig <- CurrentUserWorkspaceConfiguration ;;
  match currentUserWorkspaceConfig with
  | Some c => ret (push_valid (connections c) [])
  | None => ret []
  end.

Definition cleanConnectionsFromConfig : M unit :=
  update ClearConnections.

Definition cleanDefaultConnectionFromConfig : M unit :=
  update (ClearDefault K_displayName) ;;
  update (ClearDefault K_cloudProvider) ;;
  update (ClearDefault K_apiRootUrl) ;;
  update (ClearDefault K_personalAccessToken) ;;
  update (ClearDefault K_localSyncFolder) ;;
  update (ClearDefault K_databricksConnectJars) ;;
  update (ClearDefault K_pythonInterpreter) ;;
  update (ClearDefault K_port) ;;
  update (ClearDefault K_organizationId) ;;
  update (ClearDefault K_exportFormats) ;;
  update (ClearDefault K_useCodeCells).

Definition updateWorkspaceConfig : M unit :=
  m <- getThis ;;
  update (SetWorkspaceConfiguration (_workspaceConfig m)).

(** The [else] branch pushes [undefined] into the stored list; it cannot
    be reached, the getter always returning an object. *)
Definition updateUserWorkspaceConfig : M unit :=
  log "Updating user setting 'databricks.userWorkspaceConfigurations' ..." ;;
  AllUserWorkspaceConfigurations <- AllGlobalWorkspaceConfigurations ;;
  currentGlobalWorkspaceConfig <- CurrentWorkspaceConfiguration ;;
  updatedGlobalWorkspaceConfigs <-
    match currentGlobalWorkspaceConfig with
    | Some _ =>
        others <- filter_by_guid false AllUserWorkspaceConfigurations ;;
        current <- CurrentWorkspaceConfiguration ;;
        match current with
        | Some c => ret (others ++ [c])
        | None => ret others
        end
    | None => ret AllUserWorkspaceConfigurations
    end ;;
  (* the value is the list as it is when the request is issued; the
     thenable of the request is not awaited, its [then] callback only logs
     once the write has been made *)
  update (SetUserWorkspaceConfigurations updatedGlobalWorkspaceConfigs) ;;
  log "Removing workspace settings 'databricks.*' as they have been persisted in the user settings!" ;;
  cleanConnectionsFromConfig ;;
  cleanDefaultConnectionFromConfig.

Definition loadConnections : M unit :=
  log "Getting current Workspace Configuration (databricks.workspaceConfiguration) ..." ;;
  cfg <- getConfigurationSetting databricks_workspaceConfiguration ;;
  set_workspaceConfig cfg ;;
  match cfg with
  | None =>
      (* the right-hand side is evaluated, then the assignment to a
         property of [undefined] throws *)
      log "Creating Workspace Configuration ..." ;;
      g <- Helper_newGuid ;;
      throw (TypeError "Cannot set properties of undefined (setting 'workspaceGuid')")
  | Some wc =>
      match workspaceGuid wc with
      | None =>
          log "Creating Workspace Configuration ..." ;;
          g <- Helper_newGuid ;;
          set_workspaceConfig
            (Some (mkWorkspaceConfig (Some g) (lastActiveConnection wc)))
      | Some _ => ret tt
      end
  end ;;
  log "Loading connections array from Workspace (databricks.connections)..." ;;
  fromWorkspace <- getConnectionsFromWorkspace ;;
  set_connections fromWorkspace ;;
  log (string_of_nat (length fromWorkspace) ++ " connection(s) loaded from Workspace!")%string ;;
  log "Loading default connection from Workspace/UserSettings (databricks.connection.default.*) ..." ;;
  defaultConnectionFromWorkspace <- getDefaultConnectionFromWorkspace ;;
  match defaultConnectionFromWorkspace with
  | Some _ => log "Default connection loaded from Workspace/UserSettings!"
  | None => log "No Default connection found in Workspace/UserSettings!"
  end ;;
  log "Loading connections array from UserSetting (databricks.userWorkspaceConfigurations)..." ;;
  connectionsFromGlobalConfig <- getConnectionsFromGlobalConfig ;;
  log (string_of_nat (length connectionsFromGlobalConfig) ++ " connection(s) loaded from UserSetting!")%string ;;
  m <- getThis ;;
  match defaultConnectionFromWorkspace with
  | Some d =>
      if negb (includes (displayName d) (map displayName (_connections m)))
      then set_connections (_connections m ++ [d])
      else ret tt
  | None => ret tt
  end ;;
  m <- getThis ;;
  let newConnectionsFromWorkspace :=
    filter (fun x => negb (includes (displayName x)
                                    (map displayName (_connections m))))
           connectionsFromGlobalConfig in
  set_connections (_connections m ++ newConnectionsFromWorkspace) ;;
  set_initialized true ;;
  updateUserWorkspaceConfig.

Definition codeRegularExpression : string :=
  "^(# COMMAND ----------|#\s*%%|#\s*\<codecell\>|#\s*In\[\d*?\]|#\s*In\[ \])".

(** The text JavaScript concatenates for a string that may be
    [undefined]. *)
Definition to_text (s : option string) : string :=
  match s with
  | Some v => v
  | None => "undefined"
  end.

(** The body of [async activateConnection(displayName)]; the argument is
    [undefined] where the caller hands over an unset property. *)
Definition activateConnection_body (name : option string)
    : M (option DatabricksConnection) :=
  cons <- Connections ;;
  let filteredConnections :=
    filter (fun x => loose_eq (Some (displayName x)) name) cons in
  match filteredConnections with
  | [c] =>
      set_activeConnection (Some c) ;;
      m <- getThis ;;
      match _workspaceConfig m with
      | None =>
          throw (TypeError "Cannot set properties of undefined (setting 'lastActiveConnection')")
      | Some wc =>
          set_workspaceConfig (Some (mkWorkspaceConfig (workspaceGuid wc) name))
      end ;;
      active <- ActiveConnection ;;
      emit (ApiInitialize active) ;;
      updateWorkspaceConfig ;;
      active <- ActiveConnection ;;
      match active with
      | None =>
          throw (TypeError "Cannot read properties of undefined (reading 'useCodeCells')")
      | Some a =>
          if truthy_bool (useCodeCells a)
          then update (SetCodeRegularExpression (Some codeRegularExpression))
          else update (SetCodeRegularExpression None)
      end ;;
      m <- getThis ;;
      ret (_activeConnection m)
  | _ =>
      let msg := ("Connection with name  '" ++ to_text name ++ "' could not be found!")%string in
      log msg ;;
      throw (Error msg)
  end.

Definition activateConnection (name : option string)
    : M (Promise (option DatabricksConnection)) :=
  async (activateConnection_body name).

Definition noConnectionsMessage : string :=
  "No connections have been configured yet! Please add a connection via the VSCode Settings -> Databricks before proceeding!".

(** The promises of both [activateConnection] calls are dropped. *)
Definition constructor : M unit :=
  setThis super ;;
  set_initialized false ;;
  loadConnections ;;
  cons <- Connections ;;
  match cons with
  | [] =>
      log noConnectionsMessage ;;
      emit (ShowErrorMessage noConnectionsMessage)
  | first :: _ =>
      m <- getThis ;;
      match _workspaceConfig m with
      | None =>
          throw (TypeError "Cannot read properties of undefined (reading 'lastActiveConnection')")
      | Some wc =>
          match lastActiveConnection wc with
          | None =>
              set_workspaceConfig
                (Some (mkWorkspaceConfig (workspaceGuid wc)
                                         (Some (displayName first))))
          | Some _ => ret tt
          end
      end ;;
      try_catch
        (m <- getThis ;;
         match _workspaceConfig m with
         | None =>
             throw (TypeError "Cannot read properties of undefined (reading 'lastActiveConnection')")
         | Some wc =>
             p <- activateConnection (lastActiveConnection wc) ;;
             discard p
         end)
        (fun error =>
           m <- getThis ;;
           match _workspaceConfig m with
           | None =>
               throw (TypeError "Cannot read properties of undefined (reading 'lastActiveConnection')")
           | Some wc =>
               log ("Could not activate Connection '" ++ to_text (lastActiveConnection wc) ++ "' ...")%string ;;
               log "Activating first available connection instead ..." ;;
               cons <- Connections ;;
               match cons with
               | [] =>
                   throw (TypeError "Cannot read properties of undefined (reading 'displayName')")
               | c :: _ =>
                   p <- activateConnection (Some (displayName c)) ;;
                   discard p
               end
           end)
  end.

(** *** What the three readers return, and the merge in the spec's terms *)

(** L1: the valid records of the workspace setting [databricks.connections]. *)
Definition L1_of (s : Settings) : list DatabricksConnection :=
  match databricks_connections s with
  | Some l => filter validate l
  | None => []
  end.

(** D: the record of the [databricks.connection.default.*] block, when it
    has a non-empty displayName and validates. *)
Definition D_of (s : Settings) : option DatabricksConnection :=
  let d := databricks_connection_default s in
  match default_displayName d with
  | None => None
  | Some n =>
      let c := mkConnection n (default_cloudProvider d) (default_apiRootUrl d)
                 (default_personalAccessToken d) (default_localSyncFolder d)
                 (default_exportFormats d) (default_useCodeCells d) None in
      if String.eqb n "" || negb (validate c) then None else Some c
  end.

(** The entries of the global list stored under a guid. *)
Definition entries_for (guid : option string) (s : Settings)
    : list iUserWorkspaceConfiguration :=
  filter (fun x => loose_eq (workspaceGuid (workspaceConfig x)) guid)
         (databricks_userWorkspaceConfigurations s).

Definition entries_except (guid : option string) (s : Settings)
    : list iUserWorkspaceConfiguration :=
  filter (fun x => negb (loose_eq (workspaceGuid (workspaceConfig x)) guid))
         (databricks_userWorkspaceConfigurations s).

(** L3: the valid records of the one entry stored under the guid. *)
Definition L3_of (guid : option string) (s : Settings)
    : list DatabricksConnection :=
  match entries_for guid s with
  | [x] => filter validate (connections x)
  | _ => []
  end.

Definition names (l : list DatabricksConnection) : list string :=
  map displayName l.

(** L1, plus D if its name is new. *)
Definition with_default (L1 : list DatabricksConnection)
    (D : option DatabricksConnection) : list DatabricksConnection :=
  match D with
  | Some d => if includes (displayName d) (names L1) then L1 else L1 ++ [d]
  | None => L1
  end.

(** The merged list in the spec's terms: L1 (+ D if new), followed by the
    records of L3 whose name is in neither. *)
Definition merged (L1 : list DatabricksConnection)
    (D : option DatabricksConnection) (L3 : list DatabricksConnection)
    : list DatabricksConnection :=
  with_default L1 D
  ++ filter (fun x => negb (includes (displayName x) (names (with_default L1 D))))
            L3.

(** The workspace configuration once [loadConnections] has made sure of a
    guid, and the guid counter after it. *)
Definition ensure_guid (wc : iWorkspaceConfiguration) (counter : nat)
    : iWorkspaceConfiguration * nat :=
  match workspaceGuid wc with
  | None =>
      (mkWorkspaceConfig (Some (newGuid counter)) (lastActiveConnection wc),
       S counter)
  | Some _ => (wc, counter)
  end.

(** The requests [updateUserWorkspaceConfig] issues, in order. *)
Definition persist_requests (glob : list iUserWorkspaceConfiguration)
    : list ConfigUpdate :=
  [SetUserWorkspaceConfigurations glob; ClearConnections;
   ClearDefault K_displayName; ClearDefault K_cloudProvider;
   ClearDefault K_apiRootUrl; ClearDefault K_personalAccessToken;
   ClearDefault K_localSyncFolder; ClearDefault K_databricksConnectJars;
   ClearDefault K_pythonInterpreter; ClearDefault K_port;
   ClearDefault K_organizationId; ClearDefault K_exportFormats;
   ClearDefault K_useCodeCells].

(** The effects of [updateUserWorkspaceConfig], in order. *)
Definition persist_trace (glob : list iUserWorkspaceConfiguration)
    : list Effect :=
  [Log "Updating user setting 'databricks.userWorkspaceConfigurations' ...";
   Update (SetUserWorkspaceConfigurations glob);
   Log "Removing workspace settings 'databricks.*' as they have been persisted in the user settings!";
   Update ClearConnections;
   Update (ClearDefault K_displayName); Update (ClearDefault K_cloudProvider);
   Update (ClearDefault K_apiRootUrl);
   Update (ClearDefault K_personalAccessToken);
   Update (ClearDefault K_localSyncFolder);
   Update (ClearDefault K_databricksConnectJars);
   Update (ClearDefault K_pythonInterpreter); Update (ClearDefault K_port);
   Update (ClearDefault K_organizationId);
   Update (ClearDefault K_exportFormats); Update (ClearDefault K_useCodeCells)].

Definition corruptionError : JsError :=
  Error "There is an error in your User Workspace Configurations ('databricks.userWorkspaceConfigurations'). Please make sure all 'workspaceGuid' are unique!".

Definition notFoundMessage (name : option string) : string :=
  ("Connection with name  '" ++ to_text name ++ "' could not be found!")%string.

(** The records [activateConnection] finds under a name. *)
Definition matching (name : option string) (l : list DatabricksConnection)
    : list DatabricksConnection :=
  filter (fun x => loose_eq (Some (displayName x)) name) l.

(** A manager on which [loadConnections] has returned. *)
Definition loaded (m : Manager) : Prop :=
  _initialized m = true /\ exists wc, _workspaceConfig m = Some wc.

(** Projections of a run. *)
Definition completion_of {A : Type} (r : Completion A * World * list Effect)
    : Completion A := fst (fst r).
Definition world_of {A : Type} (r : Completion A * World * list Effect)
    : World := snd (fst r).
Definition trace_of {A : Type} (r : Completion A * World * list Effect)
    : list Effect := snd r.

(** get ActiveConnectionName *)
Definition ActiveConnectionName : M string :=
  active <- ActiveConnection ;;
  match active with
  | None =>
      throw (TypeError "Cannot read properties of undefined (reading 'displayName')")
  | Some a => ret (displayName a)
  end.

(** The update requests that leave [databricks.workspaceConfiguration] and
    [python.dataScience.codeRegularExpression] alone. *)
Definition spares_workspace_keys (u : ConfigUpdate) : bool :=
  match u with
  | SetWorkspaceConfiguration _ => false
  | SetCodeRegularExpression _ => false
  | _ => true
  end.

(** Effects that are log lines or settings update requests. *)
Definition log_or_update (e : Effect) : bool :=
  match e with
  | Log _ => true
  | Update _ => true
  | _ => false
  end.

(** The arguments of the calls of [DatabricksApiService.initialize] in a
    trace, in order. *)
Fixpoint api_calls (trace : list Effect)
    : list (option DatabricksConnection) :=
  match trace with
  | [] => []
  | ApiInitialize con :: rest => con :: api_calls rest
  | _ :: rest => api_calls rest
  end.

(** ** Properties *)

Lemma push_valid_filter (l : list iDatabricksConnection) (acc : list DatabricksConnection) :
  push_valid l acc = acc ++ filter validate l.
Proof.
  revert acc; induction l as [|c l IH]; intros acc; simpl.
  - now rewrite app_nil_r.
  - destruct (validate c); rewrite IH; [now rewrite <- app_assoc|reflexivity].
Qed.

Lemma getConnectionsFromWorkspace_run (w : World) :
  getConnectionsFromWorkspace w = (Normal (L1_of (settings w)), w, []).
Proof.
  unfold getConnectionsFromWorkspace, L1_of, bind, getConfigurationSetting.
  destruct (databricks_connections (settings w)); simpl;
    [rewrite push_valid_filter|]; reflexivity.
Qed.

Lemma getDefaultConnectionFromWorkspace_run (w : World) :
  getDefaultConnectionFromWorkspace w = (Normal (D_of (settings w)), w, []).
Proof.
  unfold getDefaultConnectionFromWorkspace, D_of, bind, getConfigurationSetting.
  destruct (default_displayName _) as [n|]; simpl; [|reflexivity].
  destruct (String.eqb n "" || negb (validate _)); reflexivity.
Qed.

Lemma filter_by_guid_run (b : bool) (all : list iUserWorkspaceConfiguration)
    (w : World) (wc : iWorkspaceConfiguration) :
  _workspaceConfig (this w) = Some wc ->
  filter_by_guid b all w
  = (Normal (filter (fun x => Bool.eqb b
                        (loose_eq (workspaceGuid (workspaceConfig x))
                                  (workspaceGuid wc))) all), w, []).
Proof.
  intros H. unfold filter_by_guid, bind, getThis. rewrite H. reflexivity.
Qed.

Lemma filter_eqb_true {A : Type} (f : A -> bool) (l : list A) :
  filter (fun x => Bool.eqb true (f x)) l = filter f l.
Proof.
  apply filter_ext. intros a. now destruct (f a).
Qed.

Lemma filter_eqb_false {A : Type} (f : A -> bool) (l : list A) :
  filter (fun x => Bool.eqb false (f x)) l = filter (fun x => negb (f x)) l.
Proof.
  apply filter_ext. intros a. now destruct (f a).
Qed.

Lemma CurrentUserWorkspaceConfiguration_run (w : World) (wc : iWorkspaceConfiguration) :
  _workspaceConfig (this w) = Some wc ->
  CurrentUserWorkspaceConfiguration w
  = match entries_for (workspaceGuid wc) (settings w) with
    | [x] => (Normal (Some x), w, [])
    | [] => (Normal None, w, [])
    | _ => (Throw corruptionError, w, [])
    end.
Proof.
  intros H. unfold CurrentUserWorkspaceConfiguration, bind at 1.
  unfold AllGlobalWorkspaceConfigurations, getConfigurationSetting.
  unfold bind. rewrite (filter_by_guid_run _ _ _ _ H), filter_eqb_true.
  unfold entries_for.
  destruct (filter _ _) as [|x [|y l]]; reflexivity.
Qed.

Lemma getConnectionsFromGlobalConfig_run (w : World) (wc : iWorkspaceConfiguration) :
  _workspaceConfig (this w) = Some wc ->
  getConnectionsFromGlobalConfig w
  = match entries_for (workspaceGuid wc) (settings w) with
    | _ :: _ :: _ => (Throw corruptionError, w, [])
    | _ => (Normal (L3_of (workspaceGuid wc) (settings w)), w, [])
    end.
Proof.
  intros H. unfold getConnectionsFromGlobalConfig, bind, L3_of.
  rewrite (CurrentUserWorkspaceConfiguration_run _ _ H).
  destruct (entries_for _ _) as [|x [|y l]]; simpl;
    [|rewrite push_valid_filter|]; reflexivity.
Qed.

Lemma updateUserWorkspaceConfig_run (w : World) (wc : iWorkspaceConfiguration) :
  _initialized (this w) = true ->
  _workspaceConfig (this w) = Some wc ->
  updateUserWorkspaceConfig w
  = (Normal tt, w,
     persist_trace (entries_except (workspaceGuid wc) (settings w)
                    ++ [mkUserWorkspaceConfig wc (_connections (this w))])).
Proof.
  intros Hi Hc.
  unfold updateUserWorkspaceConfig, bind at 1. unfold log at 1, emit at 1.
  unfold bind at 1.
  unfold AllGlobalWorkspaceConfigurations, getConfigurationSetting.
  assert (Hcur : CurrentWorkspaceConfiguration w
                 = (Normal (Some (mkUserWorkspaceConfig wc (_connections (this w)))), w, [])).
  { unfold CurrentWorkspaceConfiguration, Connections, bind, getThis.
    rewrite Hc, Hi. reflexivity. }
  unfold bind at 1. rewrite Hcur.
  unfold bind at 1. unfold bind at 1.
  rewrite (filter_by_guid_run _ _ _ _ Hc), filter_eqb_false.
  unfold bind at 1. rewrite Hcur.
  reflexivity.
Qed.

(** *** Running [loadConnections] *)

Ltac norm :=
  cbn [settings this guidCounter _initialized _connections _activeConnection
       _workspaceConfig workspaceGuid lastActiveConnection fst snd negb].

Ltac norm_in H :=
  cbn [settings this guidCounter _initialized _connections _activeConnection
       _workspaceConfig workspaceGuid lastActiveConnection fst snd negb] in H.

Ltac unfold_prims :=
  cbv beta iota zeta delta
    [bind log emit update getConfigurationSetting set_workspaceConfig getThis
     setThis ret throw spin Helper_newGuid set_connections set_initialized
     set_activeConnection].

(** With a workspace configuration in the settings and at most one global
    entry under its guid, the load returns, and the only update requests
    issued are those of the persistence step. *)
Lemma loadConnections_normal (w : World) (wc : iWorkspaceConfiguration) :
  databricks_workspaceConfiguration (settings w) = Some wc ->
  length (entries_for (workspaceGuid (fst (ensure_guid wc (guidCounter w))))
                      (settings w)) <= 1 ->
  let wc' := fst (ensure_guid wc (guidCounter w)) in
  let cons := merged (L1_of (settings w)) (D_of (settings w))
                     (L3_of (workspaceGuid wc') (settings w)) in
  exists es,
    loadConnections w
    = (Normal tt,
       mkWorld (settings w)
         (mkManager true (Some wc') cons (_activeConnection (this w)))
         (snd (ensure_guid wc (guidCounter w))),
       es)
    /\ updates_of es
       = persist_requests
           (entries_except (workspaceGuid wc') (settings w)
            ++ [mkUserWorkspaceConfig wc' cons]).
Proof.
  intros Hcfg Hlen wc' cons. subst wc' cons. revert Hlen.
  unfold ensure_guid, merged, with_default, names.
  destruct (workspaceGuid wc) as [g|] eqn:Hg; norm; rewrite ?Hg; intros Hlen;
    destruct (D_of (settings w)) as [d|] eqn:HD;
    try destruct (includes (displayName d) _) eqn:Hincl;
    match type of Hlen with
    | context [entries_for ?g ?s] =>
        destruct (entries_for g s) as [|x [|y l]] eqn:He;
          [ | | simpl in Hlen; lia ]
    end;
    (eexists; split;
     [ unfold loadConnections; unfold_prims; rewrite Hcfg, ?Hg; norm;
       rewrite getConnectionsFromWorkspace_run; norm;
       rewrite getDefaultConnectionFromWorkspace_run; norm; rewrite HD; norm;
       erewrite getConnectionsFromGlobalConfig_run by reflexivity; norm;
       rewrite ?Hg, He; norm;
       rewrite ?Hincl; norm;
       erewrite updateUserWorkspaceConfig_run by reflexivity; norm;
       rewrite ?Hg; reflexivity
     | reflexivity ]).
Qed.

(** With two or more global entries under the guid, the load throws from
    the getter, having issued no update request. *)
Lemma loadConnections_corrupt (w : World) (wc : iWorkspaceConfiguration) :
  databricks_workspaceConfiguration (settings w) = Some wc ->
  2 <= length (entries_for (workspaceGuid (fst (ensure_guid wc (guidCounter w))))
                           (settings w)) ->
  exists es,
    loadConnections w
    = (Throw corruptionError,
       mkWorld (settings w)
         (mkManager (_initialized (this w))
            (Some (fst (ensure_guid wc (guidCounter w))))
            (L1_of (settings w)) (_activeConnection (this w)))
         (snd (ensure_guid wc (guidCounter w))),
       es)
    /\ updates_of es = [].
Proof.
  intros Hcfg Hlen. revert Hlen. unfold ensure_guid.
  destruct (workspaceGuid wc) as [g|] eqn:Hg; norm; rewrite ?Hg; intros Hlen;
    destruct (D_of (settings w)) as [d|] eqn:HD;
    match type of Hlen with
    | context [entries_for ?g ?s] =>
        destruct (entries_for g s) as [|x [|y l]] eqn:He;
          [ simpl in Hlen; lia | simpl in Hlen; lia | ]
    end;
    (eexists; split;
     [ unfold loadConnections; unfold_prims; rewrite Hcfg, ?Hg; norm;
       rewrite getConnectionsFromWorkspace_run; norm;
       rewrite getDefaultConnectionFromWorkspace_run; norm; rewrite HD; norm;
       erewrite getConnectionsFromGlobalConfig_run by reflexivity; norm;
       rewrite ?Hg, He; reflexivity
     | reflexivity ]).
Qed.

(** With no workspace configuration in the settings, the assignment to
    [this._workspaceConfig.workspaceGuid] throws. *)
Lemma loadConnections_undefined (w : World) :
  databricks_workspaceConfiguration (settings w) = None ->
  loadConnections w
  = (Throw (TypeError "Cannot set properties of undefined (setting 'workspaceGuid')"),
     mkWorld (settings w)
       (mkManager (_initialized (this w)) None (_connections (this w))
                  (_activeConnection (this w)))
       (S (guidCounter w)),
     [Log "Getting current Workspace Configuration (databricks.workspaceConfiguration) ...";
      Log "Creating Workspace Configuration ..."]).
Proof.
  intros Hcfg. unfold loadConnections. unfold_prims. rewrite Hcfg. reflexivity.
Qed.

(** A load that returns had a workspace configuration to start from and
    found at most one global entry under its guid. *)
Lemma loadConnections_returns_inv (w : World) :
  completion_of (loadConnections w) = Normal tt ->
  exists wc,
    databricks_workspaceConfiguration (settings w) = Some wc
    /\ length (entries_for
                 (workspaceGuid (fst (ensure_guid wc (guidCounter w))))
                 (settings w)) <= 1.
Proof.
  intros H.
  destruct (databricks_workspaceConfiguration (settings w)) as [wc|] eqn:Hcfg.
  - exists wc. split; [reflexivity|].
    destruct (le_lt_dec (length (entries_for
                 (workspaceGuid (fst (ensure_guid wc (guidCounter w))))
                 (settings w))) 1) as [Hle|Hgt]; [exact Hle|].
    destruct (loadConnections_corrupt w wc Hcfg Hgt) as [es [Hrun _]].
    rewrite Hrun in H. discriminate H.
  - rewrite (loadConnections_undefined w Hcfg) in H. discriminate H.
Qed.

(** *** Running [activateConnection] *)

Lemma activateConnection_found (w : World) (name : option string)
    (r : DatabricksConnection) (wc : iWorkspaceConfiguration) :
  _initialized (this w) = true ->
  _workspaceConfig (this w) = Some wc ->
  matching name (_connections (this w)) = [r] ->
  activateConnection name w
  = (Normal (Fulfilled (Some r)),
     mkWorld (settings w)
       (mkManager (_initialized (this w))
          (Some (mkWorkspaceConfig (workspaceGuid wc) name))
          (_connections (this w)) (Some r))
       (guidCounter w),
     [ApiInitialize (Some r);
      Update (SetWorkspaceConfiguration
                (Some (mkWorkspaceConfig (workspaceGuid wc) name)));
      Update (SetCodeRegularExpression
                (if truthy_bool (useCodeCells r)
                 then Some codeRegularExpression else None))]).
Proof.
  intros Hi Hc Hm. unfold matching in Hm.
  unfold activateConnection, async, activateConnection_body, Connections,
    ActiveConnection, updateWorkspaceConfig.
  unfold_prims. rewrite Hi. norm. rewrite Hm. norm. rewrite Hc. norm.
  rewrite Hi.
  destruct (truthy_bool (useCodeCells r)); reflexivity.
Qed.

Lemma activateConnection_not_found (w : World) (name : option string) :
  _initialized (this w) = true ->
  length (matching name (_connections (this w))) <> 1 ->
  activateConnection name w
  = (Normal (Rejected (Error (notFoundMessage name))), w,
     [Log (notFoundMessage name)]).
Proof.
  intros Hi Hm. unfold matching in Hm.
  unfold activateConnection, async, activateConnection_body, Connections.
  unfold_prims. rewrite Hi. norm.
  destruct (filter _ _) as [|x [|y l]]; [reflexivity| |reflexivity].
  now contradiction Hm.
Qed.

(** Calling an [async] function never throws into the caller. *)
Lemma async_never_throws {A : Type} (body : M A) (w : World) (e : JsError) :
  completion_of (async body w) <> Throw e.
Proof.
  unfold async, completion_of.
  destruct (body w) as [[[a| e'|] w1] es1]; discriminate.
Qed.

(** *** The merge *)

Lemma includes_In (x : string) (l : list string) :
  includes x l = true <-> In x l.
Proof.
  unfold includes. rewrite existsb_exists. split.
  - intros [y [Hy He]]. apply String.eqb_eq in He. now subst.
  - intros H. exists x. split; [exact H|apply String.eqb_refl].
Qed.

Lemma includes_false (x : string) (l : list string) :
  includes x l = false <-> ~ In x l.
Proof.
  rewrite <- includes_In. destruct (includes x l); split; intros H;
    try discriminate; try reflexivity; try (now intros H'); now contradiction H.
Qed.

Lemma names_app (l1 l2 : list DatabricksConnection) :
  names (l1 ++ l2) = names l1 ++ names l2.
Proof. apply map_app. Qed.

Lemma names_filter_incl (p : DatabricksConnection -> bool)
    (l : list DatabricksConnection) (x : string) :
  In x (names (filter p l)) -> In x (names l).
Proof.
  unfold names. rewrite !in_map_iff. intros [c [Hc Hin]].
  exists c. split; [exact Hc|]. apply filter_In in Hin. tauto.
Qed.

Lemma NoDup_names_filter (p : DatabricksConnection -> bool)
    (l : list DatabricksConnection) :
  NoDup (names l) -> NoDup (names (filter p l)).
Proof.
  induction l as [|c l IH]; simpl; intros H; [constructor|].
  inversion H as [|? ? Hnot Hrest]; subst.
  destruct (p c); simpl; [|now apply IH].
  constructor; [|now apply IH].
  intros Hin. apply Hnot. now apply names_filter_incl in Hin.
Qed.

Lemma NoDup_names_with_default (L1 : list DatabricksConnection)
    (D : option DatabricksConnection) :
  NoDup (names L1) -> NoDup (names (with_default L1 D)).
Proof.
  intros H. unfold with_default. destruct D as [d|]; [|exact H].
  destruct (includes (displayName d) (names L1)) eqn:Hi; [exact H|].
  rewrite names_app. apply NoDup_app; [exact H|repeat constructor; intros []|].
  intros a Ha [Hd|[]]. simpl in Hd. subst a.
  apply includes_false in Hi. now apply Hi.
Qed.

Lemma NoDup_names_merged (L1 L3 : list DatabricksConnection)
    (D : option DatabricksConnection) :
  NoDup (names L1) -> NoDup (names L3) -> NoDup (names (merged L1 D L3)).
Proof.
  intros H1 H3. unfold merged. rewrite names_app.
  apply NoDup_app.
  - now apply NoDup_names_with_default.
  - now apply NoDup_names_filter.
  - intros a Ha Hb. unfold names in Hb. apply in_map_iff in Hb.
    destruct Hb as [c [Hc Hin]]. apply filter_In in Hin.
    destruct Hin as [_ Hneg]. apply negb_true_iff, includes_false in Hneg.
    subst a. now apply Hneg.
Qed.

(** Selecting the records of one name. *)
Lemma named_with_default (X : string) (L1 : list DatabricksConnection)
    (D : option DatabricksConnection) :
  In X (names L1) ->
  filter (fun c => String.eqb (displayName c) X) (with_default L1 D)
  = filter (fun c => String.eqb (displayName c) X) L1.
Proof.
  intros HX. unfold with_default. destruct D as [d|]; [|reflexivity].
  destruct (includes (displayName d) (names L1)) eqn:Hi; [reflexivity|].
  rewrite filter_app. simpl.
  destruct (String.eqb (displayName d) X) eqn:He; [|apply app_nil_r].
  apply String.eqb_eq in He. subst X.
  apply includes_false in Hi. now contradiction Hi.
Qed.

Lemma named_new_from_global (X : string) (L12 L3 : list DatabricksConnection) :
  In X (names L12) ->
  filter (fun c => String.eqb (displayName c) X)
         (filter (fun x => negb (includes (displayName x) (names L12))) L3)
  = [].
Proof.
  intros HX. induction L3 as [|c l IH]; simpl; [reflexivity|].
  destruct (includes (displayName c) (names L12)) eqn:Hi; simpl; [exact IH|].
  destruct (String.eqb (displayName c) X) eqn:He; [|exact IH].
  apply String.eqb_eq in He. subst X.
  apply includes_false in Hi. now contradiction Hi.
Qed.

Lemma with_default_keeps_names (L1 : list DatabricksConnection)
    (D : option DatabricksConnection) (X : string) :
  In X (names L1) -> In X (names (with_default L1 D)).
Proof.
  intros H. unfold with_default. destruct D as [d|]; [|exact H].
  destruct (includes _ _); [exact H|].
  rewrite names_app. apply in_or_app. now left.
Qed.

(** What a load that returns leaves in the manager. *)
Lemma loadConnections_result (w : World) :
  completion_of (loadConnections w) = Normal tt ->
  exists wc,
    databricks_workspaceConfiguration (settings w) = Some wc
    /\ length (entries_for
                 (workspaceGuid (fst (ensure_guid wc (guidCounter w))))
                 (settings w)) <= 1
    /\ world_of (loadConnections w)
       = mkWorld (settings w)
           (mkManager true (Some (fst (ensure_guid wc (guidCounter w))))
              (merged (L1_of (settings w)) (D_of (settings w))
                 (L3_of (workspaceGuid (fst (ensure_guid wc (guidCounter w))))
                        (settings w)))
              (_activeConnection (this w)))
           (snd (ensure_guid wc (guidCounter w)))
    /\ updates_of (trace_of (loadConnections w))
       = persist_requests
           (entries_except
              (workspaceGuid (fst (ensure_guid wc (guidCounter w))))
              (settings w)
            ++ [mkUserWorkspaceConfig (fst (ensure_guid wc (guidCounter w)))
                  (merged (L1_of (settings w)) (D_of (settings w))
                     (L3_of (workspaceGuid (fst (ensure_guid wc (guidCounter w))))
                            (settings w)))]).
Proof.
  intros H. destruct (loadConnections_returns_inv w H) as [wc [Hcfg Hlen]].
  exists wc. split; [exact Hcfg|]. split; [exact Hlen|].
  destruct (loadConnections_normal w wc Hcfg Hlen) as [es [Hrun Hup]].
  rewrite Hrun. split; [reflexivity|exact Hup].
Qed.

(** C1 (as amended): when [loadConnections] returns, the canonical list is
    all of L1 in source order, then D if its displayName is not in L1, then
    the records of L3, in source order, whose displayName is neither in L1
    nor that of D; and if no two records of L1 and no two records of L3
    share a displayName, no two records of the canonical list do. *)
Theorem loadConnections_merge_order (w : World) :
  completion_of (loadConnections w) = Normal tt ->
  exists wc',
    _workspaceConfig (this (world_of (loadConnections w))) = Some wc'
    /\ let L1 := L1_of (settings w) in
       let D := D_of (settings w) in
       let L3 := L3_of (workspaceGuid wc') (settings w) in
       let canonical := _connections (this (world_of (loadConnections w))) in
       canonical
       = (L1 ++ match D with
                | Some d => if includes (displayName d) (names L1)
                            then [] else [d]
                | None => []
                end)
         ++ filter (fun x => negb (includes (displayName x) (names L1))
                             && match D with
                                | Some d => negb (String.eqb (displayName x)
                                                             (displayName d))
                                | None => true
                                end) L3
       /\ (NoDup (names L1) -> NoDup (names L3) -> NoDup (names canonical)).
Proof.
  intros H. destruct (loadConnections_result w H) as [wc [_ [_ [Hw _]]]].
  rewrite Hw. norm. eexists. split; [reflexivity|].
  cbv zeta. split; [|apply NoDup_names_merged].
  unfold merged, with_default.
  destruct (D_of (settings w)) as [d|]; cycle 1.
  { rewrite app_nil_r. f_equal. apply filter_ext. intros a.
    now rewrite andb_true_r. }
  destruct (includes (displayName d) (names (L1_of (settings w)))) eqn:Hi.
  - rewrite app_nil_r. f_equal. apply filter_ext_in. intros a _.
    destruct (includes (displayName a) _) eqn:Ha; [reflexivity|]. simpl.
    destruct (String.eqb (displayName a) (displayName d)) eqn:He;
      [|reflexivity].
    apply String.eqb_eq in He. rewrite He in Ha. congruence.
  - f_equal. apply filter_ext. intros a.
    rewrite names_app. unfold includes. rewrite existsb_app. simpl.
    rewrite orb_false_r, negb_orb. reflexivity.
Qed.

(** C2: for a displayName X present both in L1 and in L3, the records of
    the canonical list called X are exactly the records of L1 called X,
    field for field; nothing of L3 stands under that name. *)
Theorem loadConnections_workspace_record_wins (w : World) (X : string) :
  completion_of (loadConnections w) = Normal tt ->
  In X (names (L1_of (settings w))) ->
  (forall wc', _workspaceConfig (this (world_of (loadConnections w))) = Some wc' ->
               In X (names (L3_of (workspaceGuid wc') (settings w)))) ->
  filter (fun c => String.eqb (displayName c) X)
         (_connections (this (world_of (loadConnections w))))
  = filter (fun c => String.eqb (displayName c) X) (L1_of (settings w)).
Proof.
  intros H H1 _. destruct (loadConnections_result w H) as [wc [_ [_ [Hw _]]]].
  rewrite Hw. norm. unfold merged. rewrite filter_app.
  rewrite named_new_from_global by now apply with_default_keeps_names.
  rewrite app_nil_r. now apply named_with_default.
Qed.

(** *** Settled settings *)

Lemma settle_updates (accepted : ConfigUpdate -> bool) (es : list Effect)
    (s : Settings) :
  settle accepted es s
  = fold_left (fun acc u => if accepted u then apply_update u acc else acc)
              (updates_of es) s.
Proof.
  revert s. induction es as [|e es IH]; intros s; [reflexivity|].
  destruct e; simpl; apply IH.
Qed.


(** *** Activation *)

(** [activateConnection] is meant for a manager whose load has returned. *)
Lemma loadConnections_loaded (w : World) :
  completion_of (loadConnections w) = Normal tt ->
  loaded (this (world_of (loadConnections w))).
Proof.
  intros H. destruct (loadConnections_result w H) as [wc [_ [_ [Hw _]]]].
  rewrite Hw. split; [reflexivity|]. eexists. reflexivity.
Qed.

(** C3: when exactly one record of the canonical list is called X,
    [activateConnection(X)] makes that record the active connection, sets
    [lastActiveConnection] to X, asks for the workspace configuration to be
    stored with that name (and that is what the settings hold once the
    request is settled), and hands the record to
    [DatabricksApiService.initialize]. *)
Theorem activateConnection_unique_match (w : World) (X : string)
    (r : DatabricksConnection) :
  loaded (this w) ->
  filter (fun c => String.eqb (displayName c) X) (_connections (this w)) = [r] ->
  let run := activateConnection (Some X) w in
  completion_of run = Normal (Fulfilled (Some r))
  /\ _activeConnection (this (world_of run)) = Some r
  /\ (exists wc',
        _workspaceConfig (this (world_of run)) = Some wc'
        /\ lastActiveConnection wc' = Some X
        /\ In (Update (SetWorkspaceConfiguration (Some wc'))) (trace_of run)
        /\ databricks_workspaceConfiguration
             (settle all_accepted (trace_of run) (settings w)) = Some wc')
  /\ In (ApiInitialize (Some r)) (trace_of run).
Proof.
  intros [Hi [wc Hc]] Hm run. subst run.
  rewrite (activateConnection_found w (Some X) r wc Hi Hc Hm).
  unfold completion_of, world_of, trace_of. norm.
  repeat split.
  - eexists. repeat split.
    + right. left. reflexivity.
    + destruct (settings w). reflexivity.
  - left. reflexivity.
Qed.

(** C4: when no record or more than one record of the canonical list is
    called X, the promise of [activateConnection(X)] is rejected with an
    [Error] whose message contains X; the manager (active connection and
    [lastActiveConnection] included) is left as it was and no settings
    update is requested. *)
Theorem activateConnection_no_unique_match (w : World) (X : string) :
  _initialized (this w) = true ->
  length (filter (fun c => String.eqb (displayName c) X)
                 (_connections (this w))) <> 1 ->
  let run := activateConnection (Some X) w in
  (exists before after,
      completion_of run
      = Normal (Rejected (Error (before ++ X ++ after)%string)))
  /\ world_of run = w
  /\ _activeConnection (this (world_of run)) = _activeConnection (this w)
  /\ _workspaceConfig (this (world_of run)) = _workspaceConfig (this w)
  /\ updates_of (trace_of run) = [].
Proof.
  intros Hi Hm run. subst run.
  rewrite (activateConnection_not_found w (Some X) Hi Hm).
  unfold completion_of, world_of, trace_of. norm.
  repeat split.
  exists "Connection with name  '", "' could not be found!". reflexivity.
Qed.

(** *** The global entry of the project *)


(** *** The workspace configuration record *)

(** A configuration record without a guid gets a fresh one, kept in the
    manager, and the load goes on. *)
Lemma loadConnections_generates_guid (w : World) (wc : iWorkspaceConfiguration) :
  databricks_workspaceConfiguration (settings w) = Some wc ->
  workspaceGuid wc = None ->
  length (entries_for (Some (newGuid (guidCounter w))) (settings w)) <= 1 ->
  completion_of (loadConnections w) = Normal tt
  /\ _workspaceConfig (this (world_of (loadConnections w)))
     = Some (mkWorkspaceConfig (Some (newGuid (guidCounter w)))
                               (lastActiveConnection wc)).
Proof.
  intros Hcfg Hg Hlen.
  assert (He : ensure_guid wc (guidCounter w)
               = (mkWorkspaceConfig (Some (newGuid (guidCounter w)))
                                    (lastActiveConnection wc),
                  S (guidCounter w)))
    by (unfold ensure_guid; now rewrite Hg).
  destruct (loadConnections_normal w wc Hcfg) as [es [Hrun _]].
  { rewrite He. exact Hlen. }
  rewrite Hrun, He. split; reflexivity.
Qed.

(** C6 (the code departs from it): with no workspace configuration record
    in the settings, [loadConnections] tests for [undefined] and then
    assigns to a property of the undefined value: it throws a TypeError,
    no guid is recorded and the manager is not initialized. *)
Theorem loadConnections_absent_config_throws :
  let run := loadConnections (sample_world settings_no_config) in
  completion_of run
  = Throw (TypeError "Cannot set properties of undefined (setting 'workspaceGuid')")
  /\ _workspaceConfig (this (world_of run)) = None
  /\ _initialized (this (world_of run)) = false
  /\ updates_of (trace_of run) = [].
Proof.
  cbv zeta.
  rewrite (loadConnections_undefined (sample_world settings_no_config) eq_refl).
  repeat split.
Qed.

(** *** Loading again after the persistence step *)

Lemma settle_persist_requests (es : list Effect) (s : Settings)
    (glob : list iUserWorkspaceConfiguration) :
  updates_of es = persist_requests glob ->
  settle all_accepted es s
  = mkSettings (databricks_workspaceConfiguration s) None empty_default
               (python_dataScience_codeRegularExpression s) glob.
Proof.
  intros H. rewrite settle_updates, H.
  destruct s as [wc cns [dn cp url pat lsf jars py port org ef ucc] re g].
  reflexivity.
Qed.

Lemma filter_all {A : Type} (f : A -> bool) (l : list A) :
  (forall x, In x l -> f x = true) -> filter f l = l.
Proof.
  induction l as [|a l IH]; intros H; simpl; [reflexivity|].
  rewrite (H a (or_introl eq_refl)). f_equal. apply IH.
  intros x Hx. apply H. now right.
Qed.

Lemma filter_none {A : Type} (f : A -> bool) (l : list A) :
  filter f (filter (fun x => negb (f x)) l) = [].
Proof.
  induction l as [|a l IH]; simpl; [reflexivity|].
  destruct (f a) eqn:Hf; simpl; [exact IH|]. now rewrite Hf.
Qed.

Lemma merged_valid (s : Settings) (guid : option string)
    (c : DatabricksConnection) :
  In c (merged (L1_of s) (D_of s) (L3_of guid s)) -> validate c = true.
Proof.
  unfold merged. intros H. apply in_app_or in H. destruct H as [H|H].
  - assert (H1 : forall x, In x (L1_of s) -> validate x = true).
    { unfold L1_of. intros x Hx. destruct (databricks_connections s);
        [|destruct Hx]. apply filter_In in Hx. tauto. }
    unfold with_default in H. destruct (D_of s) as [d|] eqn:HD;
      [|now apply H1].
    destruct (includes _ _); [now apply H1|].
    apply in_app_or in H. destruct H as [H|[H|[]]]; [now apply H1|].
    subst d. unfold D_of in HD.
    destruct (default_displayName _) as [n|]; [|discriminate].
    destruct (String.eqb n "") ; simpl in HD; [discriminate|].
    destruct (validate _) eqn:Hv; simpl in HD; [|discriminate].
    injection HD as <-. exact Hv.
  - apply filter_In in H. destruct H as [H _].
    unfold L3_of in H. destruct (entries_for guid s) as [|x [|y l]];
      try destruct H. apply filter_In in H. tauto.
Qed.

(** C7 (as amended): if the workspace configuration of the settings
    already carries a guid, then after a load that returned and whose
    update requests were all carried out, a second load returns with the
    same canonical list; the workspace list and the default block are then
    empty and the list comes from the global entry of that guid. *)
Theorem loadConnections_again_same_list (w : World)
    (wc : iWorkspaceConfiguration) (g : string) :
  databricks_workspaceConfiguration (settings w) = Some wc ->
  workspaceGuid wc = Some g ->
  completion_of (loadConnections w) = Normal tt ->
  let w1 := world_of (loadConnections w) in
  let w2 := mkWorld (settle all_accepted (trace_of (loadConnections w))
                            (settings w))
                    (this w1) (guidCounter w1) in
  completion_of (loadConnections w2) = Normal tt
  /\ _connections (this (world_of (loadConnections w2)))
     = _connections (this w1)
  /\ L1_of (settings w2) = []
  /\ D_of (settings w2) = None
  /\ L3_of (Some g) (settings w2) = _connections (this w1).
Proof.
  intros Hcfg Hg H.
  destruct (loadConnections_result w H) as [wc0 [Hcfg0 [_ [Hw Hup]]]].
  rewrite Hcfg in Hcfg0. injection Hcfg0 as <-.
  assert (He : ensure_guid wc (guidCounter w) = (wc, guidCounter w))
    by (unfold ensure_guid; now rewrite Hg).
  rewrite He in Hw, Hup. cbn [fst snd] in Hw, Hup. rewrite Hg in Hw, Hup.
  rewrite (settle_persist_requests _ _ _ Hup), Hw. cbv zeta. norm.
  set (cons1 := merged (L1_of (settings w)) (D_of (settings w))
                       (L3_of (Some g) (settings w))).
  set (s2 := mkSettings _ _ _ _ _).
  assert (H1 : L1_of s2 = []) by reflexivity.
  assert (HD : D_of s2 = None) by reflexivity.
  assert (Hent : entries_for (Some g) s2 = [mkUserWorkspaceConfig wc cons1]).
  { unfold entries_for, s2.
    cbn [databricks_userWorkspaceConfigurations].
    unfold entries_except. rewrite filter_app.
    rewrite (filter_none
               (fun x => loose_eq (workspaceGuid (workspaceConfig x)) (Some g))).
    simpl.
    rewrite Hg. simpl. now rewrite String.eqb_refl. }
  assert (H3 : L3_of (Some g) s2 = cons1).
  { unfold L3_of. rewrite Hent. cbn [connections].
    apply filter_all. intros x Hx. now apply merged_valid in Hx. }
  set (w2 := mkWorld s2 _ _).
  assert (Hcfg2 : databricks_workspaceConfiguration (settings w2) = Some wc).
  { subst w2 s2. norm. cbn [databricks_workspaceConfiguration]. exact Hcfg. }
  assert (He2 : ensure_guid wc (guidCounter w2) = (wc, guidCounter w2))
    by (unfold ensure_guid; now rewrite Hg).
  destruct (loadConnections_normal w2 wc Hcfg2) as [es2 [Hrun2 _]].
  { rewrite He2. cbn [fst]. rewrite Hg. subst w2. norm. rewrite Hent.
    simpl. lia. }
  rewrite Hrun2, He2. unfold completion_of, world_of. norm.
  rewrite Hg. subst w2. norm. rewrite H1, HD, H3.
  repeat split.
  unfold merged, with_default, names. simpl. apply filter_all. reflexivity.
Qed.

(** *** The persistence step *)

(** Whatever the settings, a rejected write of the global list does not
    keep the workspace settings from being cleared. *)
Lemma persistence_rejected_still_clears (w : World) :
  completion_of (loadConnections w) = Normal tt ->
  let after := settle global_rejected (trace_of (loadConnections w))
                      (settings w) in
  databricks_connections after = None
  /\ databricks_connection_default after = empty_default
  /\ databricks_userWorkspaceConfigurations after
     = databricks_userWorkspaceConfigurations (settings w).
Proof.
  intros H. destruct (loadConnections_result w H) as [wc [_ [_ [_ Hup]]]].
  cbv zeta. rewrite settle_updates, Hup.
  destruct (settings w) as [c cns [dn cp url pat lsf jars py port org ef ucc] re g].
  repeat split.
Qed.

(** C8 (the code departs from it): the request to write the global list
    is not awaited; the requests that clear the workspace settings are
    issued in the same run.  When the global write is rejected, the
    workspace list is cleared all the same and the global list holds
    nothing of it. *)
Theorem persistence_clears_without_awaiting :
  let run := loadConnections (sample_world settings_first_run) in
  let after := settle global_rejected (trace_of run) settings_first_run in
  completion_of run = Normal tt
  /\ databricks_connections settings_first_run = Some [con_dev]
  /\ databricks_connections after = None
  /\ databricks_userWorkspaceConfigurations after = [].
Proof.
  cbv zeta.
  destruct (loadConnections_normal (sample_world settings_first_run)
              config_with_guid eq_refl) as [es [Hrun Hup]].
  { simpl. lia. }
  rewrite Hrun. unfold completion_of, trace_of. norm.
  rewrite settle_updates, Hup. repeat split.
Qed.

(** *** Construction *)

(** The [catch] block around a call of an [async] function whose promise
    is dropped is never entered. *)
Lemma try_catch_async_dead {A : Type} (body : M A) (handler : JsError -> M unit)
    (w : World) :
  try_catch (p <- async body ;; discard p) handler w
  = (p <- async body ;; discard p) w.
Proof.
  unfold try_catch, bind, async.
  destruct (body w) as [[[a|e|] w1] es1]; simpl; reflexivity.
Qed.

(** With no last active connection recorded and a first connection whose
    name no other record carries, construction activates the first
    connection and records its name. *)
Lemma constructor_unset_activates_first (w : World)
    (wc : iWorkspaceConfiguration) (first : DatabricksConnection)
    (rest : list DatabricksConnection) :
  databricks_workspaceConfiguration (settings w) = Some wc ->
  lastActiveConnection wc = None ->
  length (entries_for (workspaceGuid (fst (ensure_guid wc (guidCounter w))))
                      (settings w)) <= 1 ->
  merged (L1_of (settings w)) (D_of (settings w))
         (L3_of (workspaceGuid (fst (ensure_guid wc (guidCounter w))))
                (settings w)) = first :: rest ->
  matching (Some (displayName first)) (first :: rest) = [first] ->
  completion_of (constructor w) = Normal tt
  /\ _activeConnection (this (world_of (constructor w))) = Some first
  /\ _workspaceConfig (this (world_of (constructor w)))
     = Some (mkWorkspaceConfig
               (workspaceGuid (fst (ensure_guid wc (guidCounter w))))
               (Some (displayName first))).
Proof.
  intros Hcfg Hlast Hlen Hm Hone.
  pose (w0 := mkWorld (settings w) (mkManager false None [] None) (guidCounter w)).
  destruct (loadConnections_normal w0 wc Hcfg Hlen) as [es [Hrun _]].
  cbv zeta in Hrun. unfold w0 in Hrun. norm_in Hrun. rewrite Hm in Hrun.
  assert (Hl : lastActiveConnection (fst (ensure_guid wc (guidCounter w))) = None).
  { unfold ensure_guid. destruct (workspaceGuid wc); exact Hlast. }
  unfold constructor, Connections. unfold_prims. unfold super. norm.
  rewrite Hrun. norm. rewrite Hl.
  unfold try_catch. norm.
  erewrite activateConnection_found; [|reflexivity|reflexivity|exact Hone].
  unfold_prims. unfold discard, ret, completion_of, world_of. norm.
  repeat split.
Qed.

(** With a last active connection recorded that names no record, or more
    than one, construction returns without an active connection: the
    rejection is dropped and the [catch] block is not run. *)
Lemma constructor_stale_without_active (w : World)
    (wc : iWorkspaceConfiguration) (n : string)
    (first : DatabricksConnection) (rest : list DatabricksConnection) :
  databricks_workspaceConfiguration (settings w) = Some wc ->
  lastActiveConnection wc = Some n ->
  length (entries_for (workspaceGuid (fst (ensure_guid wc (guidCounter w))))
                      (settings w)) <= 1 ->
  merged (L1_of (settings w)) (D_of (settings w))
         (L3_of (workspaceGuid (fst (ensure_guid wc (guidCounter w))))
                (settings w)) = first :: rest ->
  length (matching (Some n) (first :: rest)) <> 1 ->
  exists es,
    constructor w
    = (Normal tt,
       mkWorld (settings w)
         (mkManager true (Some (fst (ensure_guid wc (guidCounter w))))
                    (first :: rest) None)
         (snd (ensure_guid wc (guidCounter w))),
       es ++ [Log (notFoundMessage (Some n));
              UnhandledRejection (Error (notFoundMessage (Some n)))]).
Proof.
  intros Hcfg Hlast Hlen Hm Hnone.
  pose (w0 := mkWorld (settings w) (mkManager false None [] None) (guidCounter w)).
  destruct (loadConnections_normal w0 wc Hcfg Hlen) as [es [Hrun _]].
  cbv zeta in Hrun. unfold w0 in Hrun. norm_in Hrun. rewrite Hm in Hrun.
  assert (Hl : lastActiveConnection (fst (ensure_guid wc (guidCounter w)))
               = Some n).
  { unfold ensure_guid. destruct (workspaceGuid wc); exact Hlast. }
  exists es.
  unfold constructor, Connections. unfold_prims. unfold super. norm.
  rewrite Hrun. norm. rewrite Hl.
  unfold try_catch. norm. rewrite Hl.
  erewrite activateConnection_not_found; [|reflexivity|exact Hnone].
  unfold_prims. unfold discard, emit. norm.
  rewrite app_nil_r. reflexivity.
Qed.

(** ** More on loading *)

Lemma ensure_guid_defined (wc : iWorkspaceConfiguration) (counter : nat) :
  exists g, workspaceGuid (fst (ensure_guid wc counter)) = Some g.
Proof.
  unfold ensure_guid. destruct (workspaceGuid wc) as [g|] eqn:Hg.
  - exists g. exact Hg.
  - eexists. reflexivity.
Qed.

(** X1: every record of the canonical list passed [validate]: records of
    any of the three sources that fail it are dropped. *)
Theorem loadConnections_only_valid_records (w : World)
    (c : DatabricksConnection) :
  completion_of (loadConnections w) = Normal tt ->
  In c (_connections (this (world_of (loadConnections w)))) ->
  validate c = true.
Proof.
  intros H Hin. destruct (loadConnections_result w H) as [wc [_ [_ [Hw _]]]].
  rewrite Hw in Hin. norm_in Hin. now apply merged_valid in Hin.
Qed.

(** X2: once the requests of a load are carried out, the workspace list
    and the default block are gone and the entry stored for the project
    holds valid records only: a record that fails [validate] is stored
    nowhere any more. *)
Theorem loadConnections_discards_invalid_records (w : World) :
  completion_of (loadConnections w) = Normal tt ->
  let after := settle all_accepted (trace_of (loadConnections w))
                      (settings w) in
  databricks_connections after = None
  /\ databricks_connection_default after = empty_default
  /\ forall wc' e c,
       _workspaceConfig (this (world_of (loadConnections w))) = Some wc' ->
       In e (entries_for (workspaceGuid wc') after) ->
       In c (connections e) ->
       validate c = true.
Proof.
  intros H. destruct (loadConnections_result w H) as [wc [_ [_ [Hw Hup]]]].
  cbv zeta. rewrite (settle_persist_requests _ _ _ Hup), Hw. norm.
  split; [reflexivity|]. split; [reflexivity|].
  intros wc' e c Hwc He Hc. injection Hwc as <-.
  unfold entries_for in He. cbn [databricks_userWorkspaceConfigurations] in He.
  rewrite filter_app in He. apply in_app_or in He. destruct He as [He|He].
  - unfold entries_except in He.
    rewrite (filter_none
               (fun x => loose_eq (workspaceGuid (workspaceConfig x))
                           (workspaceGuid (fst (ensure_guid wc (guidCounter w))))))
      in He.
    destruct He.
  - apply filter_In in He. destruct He as [[He|[]] _]. subst e.
    cbn [connections] in Hc. now apply merged_valid in Hc.
Qed.

(** X3: the list requested for the global store is the stored list without
    the entries of this guid, in their order, followed by one entry made
    of the manager's configuration and canonical list; once written, that
    entry is the only one under the guid and the entries of other guids
    are what they were. *)
Theorem loadConnections_upserts_global_entry (w : World) :
  completion_of (loadConnections w) = Normal tt ->
  let m := this (world_of (loadConnections w)) in
  let after := settle all_accepted (trace_of (loadConnections w))
                      (settings w) in
  exists wc',
    _workspaceConfig m = Some wc'
    /\ databricks_userWorkspaceConfigurations after
       = entries_except (workspaceGuid wc') (settings w)
         ++ [mkUserWorkspaceConfig wc' (_connections m)]
    /\ entries_for (workspaceGuid wc') after
       = [mkUserWorkspaceConfig wc' (_connections m)]
    /\ entries_except (workspaceGuid wc') after
       = entries_except (workspaceGuid wc') (settings w).
Proof.
  intros H. destruct (loadConnections_result w H) as [wc [_ [_ [Hw Hup]]]].
  cbv zeta. rewrite (settle_persist_requests _ _ _ Hup), Hw. norm.
  eexists. split; [reflexivity|]. split; [reflexivity|].
  destruct (ensure_guid_defined wc (guidCounter w)) as [g Hg].
  set (wc' := fst (ensure_guid wc (guidCounter w))) in *.
  unfold entries_for, entries_except.
  cbn [databricks_userWorkspaceConfigurations].
  rewrite !filter_app. split.
  - rewrite (filter_none
               (fun x => loose_eq (workspaceGuid (workspaceConfig x))
                                  (workspaceGuid wc'))).
    simpl. rewrite Hg. simpl. now rewrite String.eqb_refl.
  - simpl. rewrite Hg. simpl. rewrite String.eqb_refl. simpl.
    rewrite app_nil_r. apply filter_all. intros x Hx.
    apply filter_In in Hx. tauto.
Qed.

Lemma fold_spares_workspace_keys (accepted : ConfigUpdate -> bool)
    (us : list ConfigUpdate) (s : Settings) :
  forallb spares_workspace_keys us = true ->
  let after := fold_left (fun acc u => if accepted u then apply_update u acc
                                       else acc) us s in
  databricks_workspaceConfiguration after
  = databricks_workspaceConfiguration s
  /\ python_dataScience_codeRegularExpression after
     = python_dataScience_codeRegularExpression s.
Proof.
  revert s. induction us as [|u us IH]; intros s Hall; [split; reflexivity|].
  simpl in Hall. apply andb_true_iff in Hall. destruct Hall as [Hu Hall].
  cbv zeta. simpl.
  destruct (IH (if accepted u then apply_update u s else s) Hall) as [H1 H2].
  cbv zeta in H1, H2. rewrite H1, H2.
  destruct (accepted u); [|split; reflexivity].
  destruct s as [c cns d re g]. destruct u; try discriminate Hu;
    split; reflexivity.
Qed.

(** The three ways a load can end. *)
Lemma loadConnections_cases (w : World) :
  (exists e, completion_of (loadConnections w) = Throw e
             /\ updates_of (trace_of (loadConnections w)) = []
             /\ _activeConnection (this (world_of (loadConnections w)))
                = _activeConnection (this w)
             /\ _initialized (this (world_of (loadConnections w)))
                = _initialized (this w))
  \/ (completion_of (loadConnections w) = Normal tt
      /\ (exists glob, updates_of (trace_of (loadConnections w))
                       = persist_requests glob)
      /\ _activeConnection (this (world_of (loadConnections w)))
         = _activeConnection (this w)).
Proof.
  destruct (databricks_workspaceConfiguration (settings w)) as [wc|] eqn:Hcfg.
  - destruct (le_lt_dec (length (entries_for
                 (workspaceGuid (fst (ensure_guid wc (guidCounter w))))
                 (settings w))) 1) as [Hle|Hgt].
    + right. destruct (loadConnections_normal w wc Hcfg Hle) as [es [Hrun Hup]].
      rewrite Hrun. split; [reflexivity|]. split; [|reflexivity].
      eexists. exact Hup.
    + left. destruct (loadConnections_corrupt w wc Hcfg Hgt) as [es [Hrun Hup]].
      rewrite Hrun. eexists. split; [reflexivity|]. split; [exact Hup|].
      split; reflexivity.
  - left. rewrite (loadConnections_undefined w Hcfg). eexists.
    repeat split.
Qed.

(** X4: however a load ends and however its requests are settled, the
    workspace settings [databricks.workspaceConfiguration] and
    [python.dataScience.codeRegularExpression] are what they were; in
    particular a guid generated by the load is not written to the
    workspace settings. *)
Theorem loadConnections_never_writes_workspaceConfiguration (w : World)
    (accepted : ConfigUpdate -> bool) :
  let after := settle accepted (trace_of (loadConnections w)) (settings w) in
  databricks_workspaceConfiguration after
  = databricks_workspaceConfiguration (settings w)
  /\ python_dataScience_codeRegularExpression after
     = python_dataScience_codeRegularExpression (settings w).
Proof.
  cbv zeta. rewrite settle_updates.
  apply fold_spares_workspace_keys.
  destruct (loadConnections_cases w) as [[e [_ [Hup _]]]|[_ [[glob Hup] _]]];
    rewrite Hup; reflexivity.
Qed.

(** X5: a load, however it ends, leaves the active connection of the
    manager as it was, whether or not the new list still holds that
    record. *)
Theorem loadConnections_keeps_active_connection (w : World) :
  _activeConnection (this (world_of (loadConnections w)))
  = _activeConnection (this w).
Proof.
  destruct (loadConnections_cases w) as [[e [_ [_ [H _]]]]|[_ [_ H]]]; exact H.
Qed.

(** X6: a default block that validates under a name absent from L1 is the
    only record of that name in the canonical list, whatever the global
    entry holds under the name. *)
Theorem loadConnections_default_beats_global (w : World)
    (d : DatabricksConnection) :
  completion_of (loadConnections w) = Normal tt ->
  D_of (settings w) = Some d ->
  ~ In (displayName d) (names (L1_of (settings w))) ->
  filter (fun c => String.eqb (displayName c) (displayName d))
         (_connections (this (world_of (loadConnections w))))
  = [d].
Proof.
  intros H HD Hnew. destruct (loadConnections_result w H) as [wc [_ [_ [Hw _]]]].
  rewrite Hw. norm. unfold merged. rewrite filter_app.
  assert (Hwd : with_default (L1_of (settings w)) (D_of (settings w))
                = L1_of (settings w) ++ [d]).
  { rewrite HD. unfold with_default.
    apply includes_false in Hnew. now rewrite Hnew. }
  rewrite named_new_from_global.
  2:{ rewrite Hwd, names_app. apply in_or_app. right. now left. }
  rewrite Hwd, app_nil_r, filter_app. simpl. rewrite String.eqb_refl.
  replace (filter _ (L1_of (settings w))) with (@nil DatabricksConnection);
    [reflexivity|].
  symmetry. clear Hwd Hw. induction (L1_of (settings w)) as [|a l IH];
    [reflexivity|].
  simpl. destruct (String.eqb (displayName a) (displayName d)) eqn:He.
  - apply String.eqb_eq in He. contradiction Hnew. left. exact He.
  - apply IH. intros Hin. apply Hnew. right. exact Hin.
Qed.

(** ** More on activation and construction *)

Lemma updates_of_app (es1 es2 : list Effect) :
  updates_of (es1 ++ es2) = updates_of es1 ++ updates_of es2.
Proof.
  induction es1 as [|e es1 IH]; [reflexivity|].
  destruct e; simpl; rewrite ?IH; reflexivity.
Qed.

Lemma api_calls_app (es1 es2 : list Effect) :
  api_calls (es1 ++ es2) = api_calls es1 ++ api_calls es2.
Proof.
  induction es1 as [|e es1 IH]; [reflexivity|].
  destruct e; simpl; rewrite ?IH; reflexivity.
Qed.

Lemma api_calls_log_or_update (es : list Effect) :
  forallb log_or_update es = true -> api_calls es = [].
Proof.
  induction es as [|e es IH]; [reflexivity|]. simpl.
  intros H. apply andb_true_iff in H. destruct H as [He H].
  destruct e; try discriminate He; now apply IH.
Qed.

(** However it ends, a load emits nothing but log lines and settings
    update requests. *)
Lemma loadConnections_logs_and_updates (w : World) :
  forallb log_or_update (trace_of (loadConnections w)) = true.
Proof.
  destruct (databricks_workspaceConfiguration (settings w)) as [wc|] eqn:Hcfg;
    [|now rewrite (loadConnections_undefined w Hcfg)].
  destruct (workspaceGuid wc) as [g|] eqn:Hg;
    destruct (D_of (settings w)) as [d|] eqn:HD;
    try destruct (includes (displayName d)
                    (map displayName (L1_of (settings w)))) eqn:Hincl;
    [ destruct (entries_for (Some g) (settings w)) as [|x [|y l]] eqn:He ..
    | destruct (entries_for (Some (newGuid (guidCounter w))) (settings w))
        as [|x [|y l]] eqn:He
    | destruct (entries_for (Some (newGuid (guidCounter w))) (settings w))
        as [|x [|y l]] eqn:He
    | destruct (entries_for (Some (newGuid (guidCounter w))) (settings w))
        as [|x [|y l]] eqn:He ];
    unfold loadConnections; unfold_prims; rewrite Hcfg, ?Hg; norm;
    rewrite getConnectionsFromWorkspace_run; norm;
    rewrite getDefaultConnectionFromWorkspace_run; norm; rewrite HD; norm;
    (erewrite getConnectionsFromGlobalConfig_run by reflexivity); norm;
    rewrite ?Hg, He; norm; rewrite ?Hincl; norm;
    try (erewrite updateUserWorkspaceConfig_run by reflexivity);
    reflexivity.
Qed.

Lemma ensure_guid_keeps_last_active (wc : iWorkspaceConfiguration)
    (counter : nat) :
  lastActiveConnection (fst (ensure_guid wc counter))
  = lastActiveConnection wc.
Proof.
  unfold ensure_guid. destruct (workspaceGuid wc); reflexivity.
Qed.

(** Construction over a non-empty list whose recorded (or, failing that,
    first) name is carried by exactly one record. *)
Lemma constructor_activates (w : World) (wc : iWorkspaceConfiguration)
    (first r : DatabricksConnection) (rest : list DatabricksConnection) :
  databricks_workspaceConfiguration (settings w) = Some wc ->
  length (entries_for (workspaceGuid (fst (ensure_guid wc (guidCounter w))))
                      (settings w)) <= 1 ->
  merged (L1_of (settings w)) (D_of (settings w))
         (L3_of (workspaceGuid (fst (ensure_guid wc (guidCounter w))))
                (settings w)) = first :: rest ->
  let n := match lastActiveConnection wc with
           | Some m => m
           | None => displayName first
           end in
  matching (Some n) (first :: rest) = [r] ->
  let wc' := fst (ensure_guid wc (guidCounter w)) in
  let wc'' := mkWorkspaceConfig (workspaceGuid wc') (Some n) in
  exists es,
    constructor w
    = (Normal tt,
       mkWorld (settings w)
         (mkManager true (Some wc'') (first :: rest) (Some r))
         (snd (ensure_guid wc (guidCounter w))),
       es)
    /\ updates_of es
       = persist_requests
           (entries_except (workspaceGuid wc') (settings w)
            ++ [mkUserWorkspaceConfig wc' (first :: rest)])
         ++ [SetWorkspaceConfiguration (Some wc'');
             SetCodeRegularExpression
               (if truthy_bool (useCodeCells r)
                then Some codeRegularExpression else None)]
    /\ api_calls es = [Some r].
Proof.
  intros Hcfg Hlen Hm n Hone wc' wc''. subst wc' wc''.
  pose (w0 := mkWorld (settings w) (mkManager false None [] None) (guidCounter w)).
  destruct (loadConnections_normal w0 wc Hcfg Hlen) as [es [Hrun Hup]].
  pose proof (loadConnections_logs_and_updates w0) as Hlog.
  rewrite Hrun in Hlog. unfold trace_of in Hlog. cbn [snd] in Hlog.
  apply api_calls_log_or_update in Hlog.
  cbv zeta in Hrun, Hup. unfold w0 in Hrun, Hup. norm_in Hrun. norm_in Hup.
  rewrite Hm in Hrun, Hup.
  pose proof (ensure_guid_keeps_last_active wc (guidCounter w)) as Hl.
  unfold constructor, Connections. unfold_prims. unfold super. norm.
  rewrite Hrun. norm. rewrite Hl. subst n.
  destruct (lastActiveConnection wc) as [m|] eqn:Hlast; norm;
    unfold try_catch; norm; rewrite ?Hl;
    (erewrite activateConnection_found; [|reflexivity|reflexivity|exact Hone]);
    unfold_prims; unfold discard, ret; norm;
    (eexists; split; [reflexivity|]; cbn [app];
     rewrite updates_of_app, api_calls_app, Hup, Hlog; split; reflexivity).
Qed.

Lemma filter_singleton_holds {A : Type} (f : A -> bool) (l : list A) (a : A) :
  filter f l = [a] -> f a = true.
Proof.
  intros H. assert (Hin : In a (filter f l)) by (rewrite H; now left).
  apply filter_In in Hin. tauto.
Qed.

(** X7: a successful activation requests the code-cell pattern for
    [python.dataScience.codeRegularExpression] when the activated record
    has [useCodeCells] set to true, and the removal of that setting when
    the flag is false or undefined; that is what the settings hold once
    the requests are carried out. *)
Theorem activateConnection_code_cells_setting (w : World) (X : string)
    (r : DatabricksConnection) :
  loaded (this w) ->
  filter (fun c => String.eqb (displayName c) X) (_connections (this w)) = [r] ->
  let run := activateConnection (Some X) w in
  python_dataScience_codeRegularExpression
    (settle all_accepted (trace_of run) (settings w))
  = match useCodeCells r with
    | Some true => Some codeRegularExpression
    | _ => None
    end.
Proof.
  intros [Hi [wc Hc]] Hm run. subst run.
  rewrite (activateConnection_found w (Some X) r wc Hi Hc Hm).
  unfold trace_of. cbn [snd]. destruct (settings w) as [c cns d re g].
  destruct (useCodeCells r) as [[|]|]; reflexivity.
Qed.

(** X8: whatever name it is called with and however it ends,
    [activateConnection] never throws into its caller and leaves the
    canonical list, the initialized flag, the guid of the manager's
    configuration and the settings it reads as they were. *)
Theorem activateConnection_keeps_list_and_guid (w : World)
    (name : option string) :
  let run := activateConnection name w in
  (forall e, completion_of run <> Throw e)
  /\ _connections (this (world_of run)) = _connections (this w)
  /\ _initialized (this (world_of run)) = _initialized (this w)
  /\ option_map workspaceGuid (_workspaceConfig (this (world_of run)))
     = option_map workspaceGuid (_workspaceConfig (this w))
  /\ settings (world_of run) = settings w.
Proof.
  cbv zeta. split; [intros e; apply async_never_throws|].
  unfold activateConnection, async, activateConnection_body, Connections,
    ActiveConnection, updateWorkspaceConfig.
  unfold_prims. destruct w as [s [i wc cs a] ctr]. norm.
  destruct i; [|repeat split].
  match goal with
  | |- context [filter ?f cs] => destruct (filter f cs) as [|c [|c' l]]
  end; norm; [repeat split| |repeat split].
  destruct wc as [wc|]; norm; [|repeat split].
  destruct (truthy_bool (useCodeCells c)); repeat split.
Qed.

(** X9: after a successful [activateConnection(X)], the getter
    [ActiveConnectionName] returns X. *)
Theorem ActiveConnectionName_after_activation (w : World) (X : string)
    (r : DatabricksConnection) :
  loaded (this w) ->
  filter (fun c => String.eqb (displayName c) X) (_connections (this w)) = [r] ->
  completion_of
    (ActiveConnectionName (world_of (activateConnection (Some X) w)))
  = Normal X.
Proof.
  intros [Hi [wc Hc]] Hm.
  rewrite (activateConnection_found w (Some X) r wc Hi Hc Hm).
  unfold ActiveConnectionName, ActiveConnection. unfold_prims.
  unfold world_of, completion_of. norm.
  apply filter_singleton_holds in Hm. apply String.eqb_eq in Hm.
  now rewrite Hm.
Qed.


(** X11: with two or more global entries under the guid of the project,
    construction ends with the corruption error of the load: the manager
    stays uninitialized, no settings update is requested and the API
    service is not initialized. *)
Theorem constructor_propagates_corruption (w : World)
    (wc : iWorkspaceConfiguration) :
  databricks_workspaceConfiguration (settings w) = Some wc ->
  2 <= length (entries_for
                 (workspaceGuid (fst (ensure_guid wc (guidCounter w))))
                 (settings w)) ->
  let run := constructor w in
  completion_of run = Throw corruptionError
  /\ _initialized (this (world_of run)) = false
  /\ _activeConnection (this (world_of run)) = None
  /\ updates_of (trace_of run) = []
  /\ api_calls (trace_of run) = [].
Proof.
  intros Hcfg Hlen.
  pose (w0 := mkWorld (settings w) (mkManager false None [] None) (guidCounter w)).
  destruct (loadConnections_corrupt w0 wc Hcfg Hlen) as [es [Hrun Hup]].
  pose proof (loadConnections_logs_and_updates w0) as Hlog.
  rewrite Hrun in Hlog. unfold trace_of in Hlog. cbn [snd] in Hlog.
  apply api_calls_log_or_update in Hlog.
  unfold w0 in Hrun. norm_in Hrun.
  cbv zeta. unfold constructor, Connections. unfold_prims. unfold super. norm.
  rewrite Hrun. norm.
  unfold completion_of, world_of, trace_of. norm. cbn [app].
  repeat split; assumption.
Qed.

(** X12: when the recorded last active connection names exactly one
    record of the canonical list, construction activates that record,
    keeps the recorded name, and initializes the API service once, with
    that record. *)
Theorem constructor_restores_last_active (w : World)
    (wc : iWorkspaceConfiguration) (n : string)
    (first r : DatabricksConnection) (rest : list DatabricksConnection) :
  databricks_workspaceConfiguration (settings w) = Some wc ->
  lastActiveConnection wc = Some n ->
  length (entries_for (workspaceGuid (fst (ensure_guid wc (guidCounter w))))
                      (settings w)) <= 1 ->
  merged (L1_of (settings w)) (D_of (settings w))
         (L3_of (workspaceGuid (fst (ensure_guid wc (guidCounter w))))
                (settings w)) = first :: rest ->
  filter (fun c => String.eqb (displayName c) n) (first :: rest) = [r] ->
  let run := constructor w in
  completion_of run = Normal tt
  /\ _activeConnection (this (world_of run)) = Some r
  /\ option_map lastActiveConnection (_workspaceConfig (this (world_of run)))
     = Some (Some n)
  /\ api_calls (trace_of run) = [Some r].
Proof.
  intros Hcfg Hlast Hlen Hm Hone.
  destruct (constructor_activates w wc first r rest Hcfg Hlen Hm)
    as [es [Hrun [_ Hapi]]].
  { rewrite Hlast. exact Hone. }
  cbv zeta. rewrite Hrun. rewrite Hlast.
  repeat split. exact Hapi.
Qed.

(** ** Starting again from the settled settings *)

Lemma settle_activation_requests (es : list Effect) (s : Settings)
    (glob : list iUserWorkspaceConfiguration)
    (c : option iWorkspaceConfiguration) (re : option string) :
  updates_of es
  = persist_requests glob
    ++ [SetWorkspaceConfiguration c; SetCodeRegularExpression re] ->
  settle all_accepted es s = mkSettings c None empty_default re glob.
Proof.
  intros H. rewrite settle_updates, H.
  destruct s as [wc cns [dn cp url pat lsf jars py port org ef ucc] r g].
  reflexivity.
Qed.

(** What the readers find in settings whose workspace list and default
    block were cleared and whose global list ends with the entry of the
    project. *)
Lemma sources_after_persist (s : Settings) (g : string)
    (c : option iWorkspaceConfiguration) (re : option string)
    (wcE : iWorkspaceConfiguration) (cons1 : list DatabricksConnection) :
  workspaceGuid wcE = Some g ->
  (forall x, In x cons1 -> validate x = true) ->
  let s2 := mkSettings c None empty_default re
              (entries_except (Some g) s ++ [mkUserWorkspaceConfig wcE cons1]) in
  entries_for (Some g) s2 = [mkUserWorkspaceConfig wcE cons1]
  /\ entries_except (Some g) s2 = entries_except (Some g) s
  /\ merged (L1_of s2) (D_of s2) (L3_of (Some g) s2) = cons1.
Proof.
  intros Hg Hvalid s2.
  assert (He : entries_for (Some g) s2 = [mkUserWorkspaceConfig wcE cons1]).
  { unfold entries_for, s2. cbn [databricks_userWorkspaceConfigurations].
    unfold entries_except. rewrite filter_app.
    rewrite (filter_none
               (fun x => loose_eq (workspaceGuid (workspaceConfig x)) (Some g))).
    simpl. rewrite Hg. simpl. now rewrite String.eqb_refl. }
  split; [exact He|]. split.
  - unfold entries_except, s2. cbn [databricks_userWorkspaceConfigurations].
    rewrite filter_app. simpl. rewrite Hg. simpl. rewrite String.eqb_refl.
    simpl. rewrite app_nil_r. apply filter_all. intros x Hx.
    apply filter_In in Hx. tauto.
  - unfold L3_of. rewrite He. cbn [connections].
    rewrite (filter_all validate cons1 Hvalid).
    unfold merged, with_default, names. simpl. apply filter_all. reflexivity.
Qed.

(** X13: a construction that activated a connection has requested the
    manager's configuration for [databricks.workspaceConfiguration]: once
    the requests are carried out, the workspace settings hold the guid of
    the project (also one generated during this construction) and the
    name of the active connection, while the workspace list and the
    default block are cleared. *)
Theorem constructor_persists_configuration (w : World)
    (wc : iWorkspaceConfiguration) (first r : DatabricksConnection)
    (rest : list DatabricksConnection) :
  databricks_workspaceConfiguration (settings w) = Some wc ->
  length (entries_for (workspaceGuid (fst (ensure_guid wc (guidCounter w))))
                      (settings w)) <= 1 ->
  merged (L1_of (settings w)) (D_of (settings w))
         (L3_of (workspaceGuid (fst (ensure_guid wc (guidCounter w))))
                (settings w)) = first :: rest ->
  let n := match lastActiveConnection wc with
           | Some m => m
           | None => displayName first
           end in
  filter (fun c => String.eqb (displayName c) n) (first :: rest) = [r] ->
  let after := settle all_accepted (trace_of (constructor w)) (settings w) in
  exists g,
    workspaceGuid (fst (ensure_guid wc (guidCounter w))) = Some g
    /\ databricks_workspaceConfiguration after
       = Some (mkWorkspaceConfig (Some g) (Some n))
    /\ databricks_connections after = None
    /\ databricks_connection_default after = empty_default.
Proof.
  intros Hcfg Hlen Hm n Hone.
  destruct (constructor_activates w wc first r rest Hcfg Hlen Hm Hone)
    as [es [Hrun [Hup _]]].
  destruct (ensure_guid_defined wc (guidCounter w)) as [g Hg].
  cbv zeta. rewrite Hrun. unfold trace_of. cbn [snd].
  rewrite (settle_activation_requests _ _ _ _ _ Hup).
  exists g. rewrite Hg. repeat split.
Qed.


(** X15: when the workspace configuration carries a guid, the settings
    reached after a load and its requests are a fixed point: loading again
    from them and carrying out the requests of that second load leaves
    every setting as it is. *)
Theorem loadConnections_settled_fixed_point (w : World)
    (wc : iWorkspaceConfiguration) (g : string) :
  databricks_workspaceConfiguration (settings w) = Some wc ->
  workspaceGuid wc = Some g ->
  completion_of (loadConnections w) = Normal tt ->
  let w1 := world_of (loadConnections w) in
  let w2 := mkWorld (settle all_accepted (trace_of (loadConnections w))
                            (settings w))
                    (this w1) (guidCounter w1) in
  completion_of (loadConnections w2) = Normal tt
  /\ settle all_accepted (trace_of (loadConnections w2)) (settings w2)
     = settings w2.
Proof.
  intros Hcfg Hg H.
  destruct (loadConnections_result w H) as [wc0 [Hcfg0 [_ [Hw Hup]]]].
  rewrite Hcfg in Hcfg0. injection Hcfg0 as <-.
  assert (He : ensure_guid wc (guidCounter w) = (wc, guidCounter w))
    by (unfold ensure_guid; now rewrite Hg).
  rewrite He in Hw, Hup. cbn [fst snd] in Hw, Hup. rewrite Hg in Hw, Hup.
  cbv zeta. rewrite (settle_persist_requests _ _ _ Hup), Hw. norm.
  set (cons1 := merged (L1_of (settings w)) (D_of (settings w))
                       (L3_of (Some g) (settings w))) in *.
  assert (Hvalid : forall x, In x cons1 -> validate x = true).
  { intros x Hx. now apply merged_valid in Hx. }
  destruct (sources_after_persist (settings w) g
              (databricks_workspaceConfiguration (settings w))
              (python_dataScience_codeRegularExpression (settings w))
              wc cons1 Hg Hvalid) as [Hent [Hexc Hm2]].
  cbv zeta in Hent, Hexc, Hm2.
  set (s2 := mkSettings _ _ _ _ _) in *.
  set (w2 := mkWorld s2 _ _).
  assert (Hcfg2 : databricks_workspaceConfiguration (settings w2) = Some wc)
    by exact Hcfg.
  assert (He2 : ensure_guid wc (guidCounter w2) = (wc, guidCounter w2))
    by (unfold ensure_guid; now rewrite Hg).
  destruct (loadConnections_normal w2 wc Hcfg2) as [es2 [Hrun2 Hup2]].
  { rewrite He2. cbn [fst]. rewrite Hg. subst w2. norm. rewrite Hent.
    simpl. lia. }
  cbv zeta in Hup2. rewrite He2 in Hup2. cbn [fst] in Hup2.
  rewrite Hg in Hup2. subst w2. norm_in Hup2. rewrite Hm2, Hexc in Hup2.
  rewrite Hrun2. unfold completion_of, trace_of. norm.
  split; [reflexivity|].
  rewrite (settle_persist_requests _ _ _ Hup2).
  unfold s2. cbn [databricks_workspaceConfiguration
                  python_dataScience_codeRegularExpression]. reflexivity.
Qed.

(** ** The readers of the workspace settings *)

(** X19: [getConnectionsFromWorkspace] returns the records of
    [databricks.connections] that pass [validate], in the order of the
    setting, and the empty list when the setting is undefined; it changes
    nothing and emits nothing. *)
Theorem getConnectionsFromWorkspace_valid_in_order (w : World) :
  getConnectionsFromWorkspace w
  = (Normal match databricks_connections (settings w) with
            | Some l => filter validate l
            | None => []
            end, w, []).
Proof.
  apply getConnectionsFromWorkspace_run.
Qed.

(** X20: a record that [getDefaultConnectionFromWorkspace] returns has the
    non-empty displayName of the default block, passes [validate], takes
    its url and token from the block and has no secure token. *)
Theorem getDefaultConnectionFromWorkspace_record (w : World)
    (d : DatabricksConnection) :
  completion_of (getDefaultConnectionFromWorkspace w) = Normal (Some d) ->
  let block := databricks_connection_default (settings w) in
  displayName d <> ""
  /\ default_displayName block = Some (displayName d)
  /\ validate d = true
  /\ apiRootUrl d = default_apiRootUrl block
  /\ personalAccessToken d = default_personalAccessToken block
  /\ personalAccessTokenSecure d = None.
Proof.
  rewrite getDefaultConnectionFromWorkspace_run. unfold completion_of, D_of.
  cbn [fst]. intros H. cbv zeta.
  destruct (default_displayName _) as [n|]; [|discriminate H].
  destruct (String.eqb n "") eqn:Hn; simpl in H; [discriminate H|].
  destruct (validate _) eqn:Hv; simpl in H; [|discriminate H].
  injection H as H. subst d. cbn [displayName apiRootUrl personalAccessToken
                                  personalAccessTokenSecure].
  repeat split; try exact Hv.
  intros He. rewrite He in Hn. discriminate Hn.
Qed.
End ConnectionManager.

(** ** Construction with a stale last active connection *)

(** C9 (the code departs from it): with [dev] and [prod] configured and
    [gone] recorded as last active connection, [activateConnection] is an
    [async] method, so its failure is a rejected promise that the
    [try ... catch] of the constructor does not see: the fallback is not
    run, nothing is handed to the API service, and construction ends
    without an active connection. *)
Theorem constructor_stale_last_active_no_fallback :
  let run := constructor validate_spec guid_of_counter
               (sample_world settings_last_gone) in
  completion_of run = Normal tt
  /\ _connections (this (world_of run)) = [con_dev; con_prod]
  /\ _activeConnection (this (world_of run)) = None
  /\ In (UnhandledRejection
           (Error "Connection with name  'gone' could not be found!"))
        (trace_of run)
  /\ ~ In (Log "Activating first available connection instead ...")
          (trace_of run)
  /\ forall con, ~ In (ApiInitialize con) (trace_of run).
Proof.
  vm_compute. repeat split.
  - intuition.
  - intros H. repeat (destruct H as [H|H]; [discriminate H|]). exact H.
  - intros con H. repeat (destruct H as [H|H]; [discriminate H|]). exact H.
Qed.

(** ** Deleting a cluster *)

(** C10 (as amended): [delete] calls the deleteCluster API if and only if
    the confirmation is a non-empty string equal to the name of the
    cluster; on any other input (cancelled, empty, different) it logs that
    the deletion was aborted and returns without calling the API. *)
Theorem delete_calls_api_iff (cluster : DatabricksCluster)
    (confirm : option string) (deleteCluster : Promise unit) :
  (calls_deleteCluster (snd (delete cluster confirm deleteCluster)) = true
   <-> confirm = Some (name cluster) /\ name cluster <> "")
  /\ (~ (confirm = Some (name cluster) /\ name cluster <> "") ->
      delete cluster confirm deleteCluster
      = (Fulfilled tt,
         [Log ("Deletion of Cluster '" ++ name cluster ++ "' aborted!")%string])).
Proof.
  unfold delete, truthy_string, loose_eq.
  destruct confirm as [c|]; simpl.
  - destruct (String.eqb c "") eqn:He; simpl.
    + apply String.eqb_eq in He. subst c. split.
      * split; [discriminate|]. intros [H Hn]. injection H as H.
        now contradiction Hn.
      * reflexivity.
    + destruct (String.eqb c (name cluster)) eqn:Hc; simpl.
      * apply String.eqb_eq in Hc. subst c. split.
        -- split.
           ++ intros _. split; [reflexivity|].
              intros Hn. rewrite Hn in He. discriminate He.
           ++ intros _. destruct deleteCluster; reflexivity.
        -- intros Hn. contradiction Hn. split; [reflexivity|].
           intros H. rewrite H in He. discriminate He.
      * split; [|reflexivity].
        split; [discriminate|]. intros [H _]. injection H as H.
        subst c. rewrite String.eqb_refl in Hc. discriminate Hc.
  - split; [|reflexivity]. split; [discriminate|]. intros [H _]. discriminate H.
Qed.

(** C10 as stated fails for a cluster without a name: the confirmation
    equals the name and the API is not called. *)
Lemma delete_unnamed_cluster_counterexample :
  let cluster := mkCluster "" "0923-164208-meows279" in
  Some "" = Some (name cluster)
  /\ calls_deleteCluster (snd (delete cluster (Some "") (Fulfilled tt))) = false.
Proof.
  split; reflexivity.
Qed.

(** ** Instances *)

(** C1 as stated fails: two valid records of the workspace list carry the
    same name and both are in the canonical list. *)
Lemma loadConnections_duplicate_names_counterexample :
  let run := loadConnections validate_spec guid_of_counter
               (sample_world settings_dev_twice) in
  completion_of run = Normal tt
  /\ L1_of validate_spec settings_dev_twice = [con_dev; con_dev_other]
  /\ ~ NoDup (names (_connections (this (world_of run)))).
Proof.
  cbv zeta. split; [reflexivity|]. split; [reflexivity|].
  intros H. vm_compute in H. inversion H as [|? ? Hnot _]. apply Hnot.
  now left.
Qed.

Lemma loadConnections_merge_order_witness :
  let w := sample_world settings_dev_prod in
  let run := loadConnections validate_spec guid_of_counter w in
  completion_of run = Normal tt
  /\ exists wc',
      _workspaceConfig (this (world_of run)) = Some wc'
      /\ let L1 := L1_of validate_spec (settings w) in
         let D := D_of validate_spec (settings w) in
         let L3 := L3_of validate_spec (workspaceGuid wc') (settings w) in
         let canonical := _connections (this (world_of run)) in
         canonical
         = (L1 ++ match D with
                  | Some d => if includes (displayName d) (names L1)
                              then [] else [d]
                  | None => []
                  end)
           ++ filter (fun x => negb (includes (displayName x) (names L1))
                               && match D with
                                  | Some d => negb (String.eqb (displayName x)
                                                               (displayName d))
                                  | None => true
                                  end) L3
         /\ (NoDup (names L1) -> NoDup (names L3) -> NoDup (names canonical)).
Proof.
  cbv zeta. split; [reflexivity|].
  apply (loadConnections_merge_order validate_spec guid_of_counter
           (sample_world settings_dev_prod)).
  reflexivity.
Defined.

Lemma loadConnections_workspace_record_wins_witness :
  let w := sample_world settings_dev_prod in
  let run := loadConnections validate_spec guid_of_counter w in
  completion_of run = Normal tt
  /\ In "dev" (names (L1_of validate_spec (settings w)))
  /\ In "dev" (names (L3_of validate_spec (Some "guid-project") (settings w)))
  /\ filter (fun c => String.eqb (displayName c) "dev")
            (_connections (this (world_of run)))
     = filter (fun c => String.eqb (displayName c) "dev")
              (L1_of validate_spec (settings w)).
Proof.
  cbv zeta. split; [reflexivity|]. split; [left; reflexivity|].
  split; [left; reflexivity|].
  apply (loadConnections_workspace_record_wins validate_spec guid_of_counter
           (sample_world settings_dev_prod) "dev").
  - reflexivity.
  - left; reflexivity.
  - intros wc' H. vm_compute in H. injection H as <-. left; reflexivity.
Defined.

(** A manager after a load that found [dev] and [prod]. *)
Lemma activateConnection_unique_match_witness :
  let w := mkWorld settings_dev_prod
             (mkManager true (Some config_with_guid) [con_dev; con_prod] None)
             0 in
  let run := activateConnection (Some "prod") w in
  loaded (this w)
  /\ filter (fun c => String.eqb (displayName c) "prod")
            (_connections (this w)) = [con_prod]
  /\ completion_of run = Normal (Fulfilled (Some con_prod))
  /\ _activeConnection (this (world_of run)) = Some con_prod
  /\ (exists wc',
        _workspaceConfig (this (world_of run)) = Some wc'
        /\ lastActiveConnection wc' = Some "prod"
        /\ In (Update (SetWorkspaceConfiguration (Some wc'))) (trace_of run)
        /\ databricks_workspaceConfiguration
             (settle all_accepted (trace_of run) (settings w)) = Some wc')
  /\ In (ApiInitialize (Some con_prod)) (trace_of run).
Proof.
  cbv zeta.
  assert (Hl : loaded (mkManager true (Some config_with_guid)
                                 [con_dev; con_prod] None)).
  { split; [reflexivity|]. exists config_with_guid. reflexivity. }
  split; [exact Hl|]. split; [reflexivity|].
  apply (activateConnection_unique_match
           (mkWorld settings_dev_prod
              (mkManager true (Some config_with_guid) [con_dev; con_prod] None)
              0)
           "prod" con_prod).
  - exact Hl.
  - reflexivity.
Defined.

Lemma activateConnection_no_unique_match_witness :
  let w := mkWorld settings_dev_prod
             (mkManager true (Some config_with_guid) [con_dev; con_prod]
                        (Some con_dev))
             0 in
  let run := activateConnection (Some "nonexistent") w in
  _initialized (this w) = true
  /\ length (filter (fun c => String.eqb (displayName c) "nonexistent")
                    (_connections (this w))) <> 1
  /\ (exists before after,
        completion_of run
        = Normal (Rejected (Error (before ++ "nonexistent" ++ after)%string)))
  /\ world_of run = w
  /\ _activeConnection (this (world_of run)) = _activeConnection (this w)
  /\ _workspaceConfig (this (world_of run)) = _workspaceConfig (this w)
  /\ updates_of (trace_of run) = [].
Proof.
  cbv zeta. split; [reflexivity|]. split; [simpl; lia|].
  apply (activateConnection_no_unique_match
           (mkWorld settings_dev_prod
              (mkManager true (Some config_with_guid) [con_dev; con_prod]
                         (Some con_dev))
              0)
           "nonexistent").
  - reflexivity.
  - simpl; lia.
Defined.


Lemma loadConnections_again_same_list_witness :
  let w := sample_world settings_dev_prod in
  let run := loadConnections validate_spec guid_of_counter w in
  let w1 := world_of run in
  let w2 := mkWorld (settle all_accepted (trace_of run) (settings w))
                    (this w1) (guidCounter w1) in
  let again := loadConnections validate_spec guid_of_counter w2 in
  databricks_workspaceConfiguration (settings w) = Some config_with_guid
  /\ workspaceGuid config_with_guid = Some "guid-project"
  /\ completion_of run = Normal tt
  /\ completion_of again = Normal tt
  /\ _connections (this (world_of again)) = _connections (this w1)
  /\ L1_of validate_spec (settings w2) = []
  /\ D_of validate_spec (settings w2) = None
  /\ L3_of validate_spec (Some "guid-project") (settings w2)
     = _connections (this w1).
Proof.
  cbv zeta. split; [reflexivity|]. split; [reflexivity|].
  split; [reflexivity|].
  apply (loadConnections_again_same_list validate_spec guid_of_counter
           (sample_world settings_dev_prod) config_with_guid "guid-project");
    reflexivity.
Defined.

(** C7 as stated fails: the guid generated by the first load is stored
    only in the global entry, so a second load of a workspace whose
    configuration has no guid generates another one, finds no global entry
    under it and ends with an empty list. *)
Lemma loadConnections_again_new_guid_counterexample :
  let w := sample_world settings_no_guid in
  let run := loadConnections validate_spec guid_of_counter w in
  let w1 := world_of run in
  let w2 := mkWorld (settle all_accepted (trace_of run) (settings w))
                    (this w1) (guidCounter w1) in
  let again := loadConnections validate_spec guid_of_counter w2 in
  completion_of run = Normal tt
  /\ completion_of again = Normal tt
  /\ _connections (this w1) = [con_dev]
  /\ _connections (this (world_of again)) = []
  /\ _connections (this (world_of again)) <> _connections (this w1).
Proof.
  cbv zeta. repeat split. vm_compute. discriminate.
Qed.

(** ** The tree item of a cluster *)

Section ClusterViewProperties.

Variable DatabricksKernel : Type.
Variable getNotebookKernel : ClusterDefinition.t -> option DatabricksKernel.

(** X16: the context value holds the token [,STARTED,] exactly when the
    state (UNKNOWN when undefined) is RUNNING, ERROR, UNKNOWN or PENDING,
    [,STOPPED,] exactly when it is UNKNOWN, RESTARTING, RESIZING,
    TERMINATING or TERMINATED, [,KERNEL,] exactly when a notebook kernel
    exists and [,NOKERNEL,] exactly when none does; without the commas,
    [KERNEL] is found in every context value. *)
Theorem contextValue_tokens (definition : ClusterDefinition.t) :
  str_includes ",STARTED," (_contextValue DatabricksKernel getNotebookKernel definition)
  = includes (state definition) started_states
  /\ str_includes ",STOPPED," (_contextValue DatabricksKernel getNotebookKernel definition)
     = includes (state definition) stopped_states
  /\ str_includes ",KERNEL," (_contextValue DatabricksKernel getNotebookKernel definition)
     = NotebookKernelExists DatabricksKernel getNotebookKernel definition
  /\ str_includes ",NOKERNEL," (_contextValue DatabricksKernel getNotebookKernel definition)
     = negb (NotebookKernelExists DatabricksKernel getNotebookKernel definition)
  /\ str_includes "KERNEL" (_contextValue DatabricksKernel getNotebookKernel definition) = true.
Proof.
  unfold _contextValue.
  destruct (includes (state definition) started_states);
    destruct (includes (state definition) stopped_states);
    destruct (NotebookKernelExists DatabricksKernel getNotebookKernel definition);
    repeat split.
Qed.

(** X17: the icon depends on the state alone, not on the kernels: it is
    [pending.png] for PENDING, [stop.png] for UNKNOWN (or no state),
    RESTARTING, RESIZING, TERMINATING and TERMINATED, and [start.png] for
    every other state, under [resources/<theme>]. *)
Theorem getIconPath_by_state (definition : ClusterDefinition.t)
    (theme : string) :
  getIconPath DatabricksKernel getNotebookKernel definition theme
  = ["resources"; theme;
     ((if String.eqb (state definition) "PENDING" then "pending"
       else if includes (state definition) stopped_states then "stop"
            else "start") ++ ".png")%string].
Proof.
  unfold getIconPath, _contextValue.
  destruct (includes (state definition) started_states);
    destruct (includes (state definition) stopped_states);
    destruct (NotebookKernelExists DatabricksKernel getNotebookKernel definition);
    destruct (String.eqb (state definition) "PENDING");
    reflexivity.
Qed.

(** X18: a cluster whose definition has no state is shown as UNKNOWN: its
    description ends with [UNKNOWN)], its context value holds both
    [,STARTED,] and [,STOPPED,], and its icon is [stop.png]. *)
Theorem cluster_without_state_is_unknown (definition : ClusterDefinition.t)
    (theme : string) :
  ClusterDefinition.state definition = None ->
  (exists before,
      _description definition = (before ++ "UNKNOWN)")%string)
  /\ str_includes ",STARTED," (_contextValue DatabricksKernel getNotebookKernel definition) = true
  /\ str_includes ",STOPPED," (_contextValue DatabricksKernel getNotebookKernel definition) = true
  /\ getIconPath DatabricksKernel getNotebookKernel definition theme
     = ["resources"; theme; "stop.png"].
Proof.
  intros Hs.
  assert (Hst : state definition = "UNKNOWN") by (unfold state; now rewrite Hs).
  split.
  - unfold _description. rewrite Hst.
    destruct (ClusterDefinition.custom_tags definition) as [[[rc|]]|];
      try destruct (String.eqb rc "Serverless");
      try destruct (String.eqb rc "SingleNode");
      eexists; reflexivity.
  - unfold getIconPath, _contextValue. rewrite Hst.
    destruct (NotebookKernelExists DatabricksKernel getNotebookKernel definition);
      repeat split.
Qed.

(** [InteractiveKernelExists] reads the notebook kernel of the cluster: it
    always equals [NotebookKernelExists]. *)
Lemma InteractiveKernelExists_is_NotebookKernelExists
    (definition : ClusterDefinition.t) :
  InteractiveKernelExists DatabricksKernel getNotebookKernel definition
  = NotebookKernelExists DatabricksKernel getNotebookKernel definition.
Proof.
  reflexivity.
Qed.

End ClusterViewProperties.

Lemma cluster_without_state_is_unknown_witness :
  ClusterDefinition.state cluster_without_state = None
  /\ (exists before,
        _description cluster_without_state = (before ++ "UNKNOWN)")%string)
  /\ str_includes ",STARTED," (_contextValue unit no_kernels cluster_without_state)
     = true
  /\ str_includes ",STOPPED," (_contextValue unit no_kernels cluster_without_state)
     = true
  /\ getIconPath unit no_kernels cluster_without_state "dark"
     = ["resources"; "dark"; "stop.png"].
Proof.
  split; [reflexivity|].
  apply (cluster_without_state_is_unknown unit no_kernels
           cluster_without_state "dark").
  reflexivity.
Defined.

(** ** Instances of the further properties *)

Lemma loadConnections_only_valid_records_witness :
  let run := loadConnections validate_spec guid_of_counter
               (sample_world settings_dev_prod) in
  completion_of run = Normal tt
  /\ In con_prod (_connections (this (world_of run)))
  /\ validate_spec con_prod = true.
Proof.
  cbv zeta. split; [reflexivity|]. split; [right; left; reflexivity|].
  apply (loadConnections_only_valid_records validate_spec guid_of_counter
           (sample_world settings_dev_prod) con_prod).
  - reflexivity.
  - right; left; reflexivity.
Defined.

Lemma loadConnections_discards_invalid_records_witness :
  let w := sample_world settings_dev_prod in
  let run := loadConnections validate_spec guid_of_counter w in
  let after := settle all_accepted (trace_of run) (settings w) in
  completion_of run = Normal tt
  /\ databricks_connections after = None
  /\ databricks_connection_default after = empty_default
  /\ forall wc' e c,
       _workspaceConfig (this (world_of run)) = Some wc' ->
       In e (entries_for (workspaceGuid wc') after) ->
       In c (connections e) ->
       validate_spec c = true.
Proof.
  cbv zeta. split; [reflexivity|].
  apply (loadConnections_discards_invalid_records validate_spec guid_of_counter
           (sample_world settings_dev_prod)).
  reflexivity.
Defined.

Lemma loadConnections_upserts_global_entry_witness :
  let w := sample_world settings_dev_prod in
  let run := loadConnections validate_spec guid_of_counter w in
  let m := this (world_of run) in
  let after := settle all_accepted (trace_of run) (settings w) in
  completion_of run = Normal tt
  /\ exists wc',
      _workspaceConfig m = Some wc'
      /\ databricks_userWorkspaceConfigurations after
         = entries_except (workspaceGuid wc') (settings w)
           ++ [mkUserWorkspaceConfig wc' (_connections m)]
      /\ entries_for (workspaceGuid wc') after
         = [mkUserWorkspaceConfig wc' (_connections m)]
      /\ entries_except (workspaceGuid wc') after
         = entries_except (workspaceGuid wc') (settings w).
Proof.
  cbv zeta. split; [reflexivity|].
  apply (loadConnections_upserts_global_entry validate_spec guid_of_counter
           (sample_world settings_dev_prod)).
  reflexivity.
Defined.

Lemma loadConnections_default_beats_global_witness :
  let w := sample_world settings_with_default in
  let run := loadConnections validate_spec guid_of_counter w in
  completion_of run = Normal tt
  /\ D_of validate_spec (settings w) = Some con_staging
  /\ ~ In (displayName con_staging) (names (L1_of validate_spec (settings w)))
  /\ filter (fun c => String.eqb (displayName c) (displayName con_staging))
            (_connections (this (world_of run)))
     = [con_staging].
Proof.
  cbv zeta.
  assert (Hnew : ~ In (displayName con_staging)
                      (names (L1_of validate_spec settings_with_default))).
  { intros [H|[]]. discriminate H. }
  split; [reflexivity|]. split; [reflexivity|]. split; [exact Hnew|].
  apply (loadConnections_default_beats_global validate_spec guid_of_counter
           (sample_world settings_with_default) con_staging).
  - reflexivity.
  - reflexivity.
  - exact Hnew.
Defined.

Lemma loaded_world_is_loaded : loaded (this loaded_world).
Proof.
  split; [reflexivity|]. exists config_with_guid. reflexivity.
Defined.

Lemma activateConnection_code_cells_setting_witness :
  let run := activateConnection (Some "prod") loaded_world in
  loaded (this loaded_world)
  /\ filter (fun c => String.eqb (displayName c) "prod")
            (_connections (this loaded_world)) = [con_prod]
  /\ python_dataScience_codeRegularExpression
       (settle all_accepted (trace_of run) (settings loaded_world))
     = match useCodeCells con_prod with
       | Some true => Some codeRegularExpression
       | _ => None
       end.
Proof.
  cbv zeta. split; [exact loaded_world_is_loaded|]. split; [reflexivity|].
  apply (activateConnection_code_cells_setting loaded_world "prod" con_prod).
  - exact loaded_world_is_loaded.
  - reflexivity.
Defined.

Lemma ActiveConnectionName_after_activation_witness :
  loaded (this loaded_world)
  /\ filter (fun c => String.eqb (displayName c) "prod")
            (_connections (this loaded_world)) = [con_prod]
  /\ completion_of
       (ActiveConnectionName
          (world_of (activateConnection (Some "prod") loaded_world)))
     = Normal "prod".
Proof.
  split; [exact loaded_world_is_loaded|]. split; [reflexivity|].
  apply (ActiveConnectionName_after_activation loaded_world "prod" con_prod).
  - exact loaded_world_is_loaded.
  - reflexivity.
Defined.


Lemma constructor_propagates_corruption_witness :
  let w := sample_world settings_duplicate_guid in
  let run := constructor validate_spec guid_of_counter w in
  databricks_workspaceConfiguration (settings w) = Some config_with_guid
  /\ completion_of run = Throw corruptionError
  /\ _initialized (this (world_of run)) = false
  /\ _activeConnection (this (world_of run)) = None
  /\ updates_of (trace_of run) = []
  /\ api_calls (trace_of run) = [].
Proof.
  cbv zeta. split; [reflexivity|].
  apply (constructor_propagates_corruption validate_spec guid_of_counter
           (sample_world settings_duplicate_guid) config_with_guid).
  - reflexivity.
  - simpl. lia.
Defined.

Lemma constructor_restores_last_active_witness :
  let w := sample_world settings_last_prod in
  let run := constructor validate_spec guid_of_counter w in
  databricks_workspaceConfiguration (settings w) = Some config_last_prod
  /\ lastActiveConnection config_last_prod = Some "prod"
  /\ completion_of run = Normal tt
  /\ _activeConnection (this (world_of run)) = Some con_prod
  /\ option_map lastActiveConnection (_workspaceConfig (this (world_of run)))
     = Some (Some "prod")
  /\ api_calls (trace_of run) = [Some con_prod].
Proof.
  cbv zeta. split; [reflexivity|]. split; [reflexivity|].
  apply (constructor_restores_last_active validate_spec guid_of_counter
           (sample_world settings_last_prod) config_last_prod "prod"
           con_dev con_prod [con_prod]).
  - reflexivity.
  - reflexivity.
  - simpl. lia.
  - reflexivity.
  - reflexivity.
Defined.

Lemma constructor_persists_configuration_witness :
  let w := sample_world settings_no_guid in
  let after := settle all_accepted
                 (trace_of (constructor validate_spec guid_of_counter w))
                 (settings w) in
  databricks_workspaceConfiguration (settings w) = Some config_without_guid
  /\ exists g,
      workspaceGuid (fst (ensure_guid guid_of_counter config_without_guid
                                      (guidCounter w))) = Some g
      /\ databricks_workspaceConfiguration after
         = Some (mkWorkspaceConfig (Some g) (Some "dev"))
      /\ databricks_connections after = None
      /\ databricks_connection_default after = empty_default.
Proof.
  cbv zeta. split; [reflexivity|].
  apply (constructor_persists_configuration validate_spec guid_of_counter
           (sample_world settings_no_guid) config_without_guid
           con_dev con_dev []).
  - reflexivity.
  - simpl. lia.
  - reflexivity.
  - reflexivity.
Defined.


Lemma loadConnections_settled_fixed_point_witness :
  let w := sample_world settings_dev_prod in
  let run := loadConnections validate_spec guid_of_counter w in
  let w1 := world_of run in
  let w2 := mkWorld (settle all_accepted (trace_of run) (settings w))
                    (this w1) (guidCounter w1) in
  let again := loadConnections validate_spec guid_of_counter w2 in
  databricks_workspaceConfiguration (settings w) = Some config_with_guid
  /\ workspaceGuid config_with_guid = Some "guid-project"
  /\ completion_of run = Normal tt
  /\ completion_of again = Normal tt
  /\ settle all_accepted (trace_of again) (settings w2) = settings w2.
Proof.
  cbv zeta. split; [reflexivity|]. split; [reflexivity|].
  split; [reflexivity|].
  apply (loadConnections_settled_fixed_point validate_spec guid_of_counter
           (sample_world settings_dev_prod) config_with_guid "guid-project");
    reflexivity.
Defined.

Lemma getDefaultConnectionFromWorkspace_record_witness :
  let w := sample_world settings_with_default in
  let block := databricks_connection_default (settings w) in
  completion_of (getDefaultConnectionFromWorkspace validate_spec w)
  = Normal (Some con_staging)
  /\ displayName con_staging <> ""
  /\ default_displayName block = Some (displayName con_staging)
  /\ validate_spec con_staging = true
  /\ apiRootUrl con_staging = default_apiRootUrl block
  /\ personalAccessToken con_staging = default_personalAccessToken block
  /\ personalAccessTokenSecure con_staging = None.
Proof.
  cbv zeta. split; [reflexivity|].
  apply (getDefaultConnectionFromWorkspace_record validate_spec
           (sample_world settings_with_default) con_staging).
  reflexivity.
Defined.
